(** * Starlink pass tracker: the orbit core of ThatRick/WebApps

    A shallow embedding of [starlink/src/orbit] (coordinates.ts, solar.ts,
    propagator.ts, calculator.ts, orbitManager.ts) and of the record types
    of [starlink/src/types].

    Conventions of the embedding.
    - A JavaScript [number] that holds a measured quantity (degrees,
      kilometres) is a rational [Q]: finite values with exact arithmetic.
      NaN, the infinities, division by zero and binary rounding are outside
      the model, with one exception: the inclination of an orbit, which
      satellite.js reads from the text of a record and the code compares,
      is a [Js.number], a rational or NaN.
    - A number produced by [Math.round] or [Math.floor] is an integer [Z].
    - A [Date] is its time value, the integer count of milliseconds since
      the epoch, in [Z].
    - [null] and [undefined] are [None].
    - A call that may throw returns a [Result]; [try]/[catch] is a match on
      it. *)

From Stdlib Require Import ZArith QArith Qround Qminmax Qabs Lqa Lia.
From Stdlib Require Import List String Bool Sorted Permutation DecimalString.
Import ListNotations.

Open Scope Q_scope.

(** ** JavaScript numbers *)

Module Js.

Definition leb (x y : Q) : bool := Qle_bool x y.
Definition ltb (x y : Q) : bool := negb (Qle_bool y x).
Definition geb (x y : Q) : bool := leb y x.
Definition gtb (x y : Q) : bool := ltb y x.

(** [Math.floor] *)
Definition Math_floor (x : Q) : Z := Qfloor x.

(** [Math.round]: the nearest integer, a tie going up. *)
Definition Math_round (x : Q) : Z := Qfloor (x + (1 # 2)).

(** [Math.min], [Math.max], [Math.abs] *)
Definition Math_min (x y : Q) : Q := Qmin x y.
Definition Math_max (x y : Q) : Q := Qmax x y.
Definition Math_abs (x : Q) : Q := Qabs x.

(** Truncation towards zero. *)
Definition trunc (x : Q) : Z :=
  if ltb x 0 then Qceiling x else Qfloor x.

(** [x % y] on numbers: the remainder has the sign of the dividend. *)
Definition rem (x y : Q) : Q := x - y * inject_Z (trunc (x / y)).

(** [a[i]] for an integer-valued index: [undefined] out of range. *)
Definition Array_get {A : Type} (a : list A) (i : Z) : option A :=
  if (i <? 0)%Z then None else nth_error a (Z.to_nat i).

(** [new Date(value)] for a numeric time value: the integer part. *)
Definition new_Date (value : Q) : Z := trunc value.

(** [a.sort(compare)].  The language fixes the result for a consistent
  comparator: the sort is stable, so the outcome is the one ordering of
  the elements that is sorted and keeps equal elements in their original
  order.  Insertion from the right computes it. *)
Fixpoint sort_insert {A : Type} (compare : A -> A -> Z) (x : A) (sorted : list A)
  : list A :=
  match sorted with
  | [] => [x]
  | y :: rest =>
    if (compare x y <=? 0)%Z then x :: y :: rest
    else y :: sort_insert compare x rest
  end.

Definition Array_sort {A : Type} (compare : A -> A -> Z) (a : list A) : list A :=
  fold_right (sort_insert compare) [] a.

(** A number that may be NaN; a comparison with NaN is false. *)
Inductive number : Type :=
| Finite (q : Q)
| NaN.

Definition num_leb (x y : number) : bool :=
  match x, y with
  | Finite a, Finite b => leb a b
  | _, _ => false
  end.

Definition num_geb (x y : number) : bool := num_leb y x.

End Js.

(** ** The host environment

    The transcendental functions of [Math] and the calendar of [Date] are
    taken as they come: every result below holds for any implementation of
    them. *)

Class JsMath := {
  Math_PI : Q;
  Math_sin : Q -> Q;
  Math_cos : Q -> Q;
  Math_asin : Q -> Q;
  Math_acos : Q -> Q;
  Math_atan2 : Q -> Q -> Q;
  Math_sqrt : Q -> Q
}.

Class JsDate := {
  getUTCFullYear : Z -> Z;
  getUTCMonth : Z -> Z;
  getUTCDate : Z -> Z;
  getUTCHours : Z -> Z;
  getUTCMinutes : Z -> Z;
  getUTCSeconds : Z -> Z;
(** [date.toISOString()] *)
  toISOString : Z -> string;
(** [new Date(s).getTime()] for a string [s] *)
  Date_parse : string -> Z
}.

(** ** coordinates.ts *)

Module Coordinates.
Section WithMath.
Context `{JsMath}.

Definition EARTH_RADIUS_KM : Q := 6371.0.

Definition degToRad (deg : Q) : Q := (deg * Math_PI) / 180.0.

Definition radToDeg (rad : Q) : Q := (rad * 180.0) / Math_PI.

Definition haversineDistance (lat1 lon1 lat2 lon2 : Q) : Q :=
  let lat1Rad := degToRad lat1 in
  let lon1Rad := degToRad lon1 in
  let lat2Rad := degToRad lat2 in
  let lon2Rad := degToRad lon2 in
  let dlat := lat2Rad - lat1Rad in
  let dlon := lon2Rad - lon1Rad in
  let a :=
    Math_sin (dlat / 2) ^ 2 +
    Math_cos lat1Rad * Math_cos lat2Rad * Math_sin (dlon / 2) ^ 2 in
  let c := 2 * Math_asin (Math_sqrt a) in
  EARTH_RADIUS_KM * c.

Definition calculateGroundDistance (satLat satLon satAlt obsLat obsLon : Q) : Q :=
  let groundDist := haversineDistance satLat satLon obsLat obsLon in
  let distance := Math_sqrt (groundDist ^ 2 + satAlt ^ 2) in
  distance.

Definition calculateElevation (satLat satLon satAlt obsLat obsLon : Q) : Q :=
  let groundDist := haversineDistance satLat satLon obsLat obsLon in
  if Js.ltb groundDist 0.1 then 90.0
  else
    let elevation := radToDeg (Math_atan2 satAlt groundDist) in
    elevation.

Definition calculateAzimuth (satLat satLon obsLat obsLon : Q) : Q :=
  let obsLatRad := degToRad obsLat in
  let satLatRad := degToRad satLat in
  let dlonRad := degToRad (satLon - obsLon) in
  let y := Math_sin dlonRad * Math_cos satLatRad in
  let x :=
    Math_cos obsLatRad * Math_sin satLatRad -
    Math_sin obsLatRad * Math_cos satLatRad * Math_cos dlonRad in
  let azimuthRad := Math_atan2 y x in
  let azimuth := Js.rem (radToDeg azimuthRad + 360) 360 in
  azimuth.

Definition gmst (jd : Q) : Q :=
  let T := (jd - 2451545.0) / 36525.0 in
  let gmstDeg :=
    280.46061837 + 360.98564736629 * (jd - 2451545.0) + 0.000387933 * T * T in
  let gmstDeg := Js.rem gmstDeg 360 in
  let gmstDeg := if Js.ltb gmstDeg 0 then gmstDeg + 360 else gmstDeg in
  degToRad gmstDeg.

End WithMath.

Definition directions : list string :=
  ["N"; "NE"; "E"; "SE"; "S"; "SW"; "W"; "NW"]%string.

(** The element of [directions] at [index]; [undefined] when [index] is
  negative. *)
Definition azimuthToDirection (azimuth : Q) : option string :=
  let index := Z.rem (Js.Math_floor ((azimuth + 22.5) / 45)) 8 in
  Js.Array_get directions index.

Definition julianDate `{JsDate} (date : Z) : Q :=
  let year := getUTCFullYear date in
  let month := (getUTCMonth date + 1)%Z in
  let day :=
    inject_Z (getUTCDate date) +
    inject_Z (getUTCHours date) / 24 +
    inject_Z (getUTCMinutes date) / 1440 +
    inject_Z (getUTCSeconds date) / 86400 in
  let '(year, month) :=
    if (month <=? 2)%Z then ((year - 1)%Z, (month + 12)%Z) else (year, month) in
  let A := Js.Math_floor (inject_Z year / 100) in
  let B := (2 - A + Js.Math_floor (inject_Z A / 4))%Z in
  let jd :=
    inject_Z (Js.Math_floor (365.25 * inject_Z (year + 4716))) +
    inject_Z (Js.Math_floor (30.6001 * inject_Z (month + 1))) +
    day +
    inject_Z B -
    1524.5 in
  jd.

End Coordinates.

(** ** types

    The declarations of [VisibilityInfo], [TLEData], [SatellitePosition],
    [OrbitalElements] and [TLEDataset] are read off the object literals and
    field accesses of the code that builds and uses them. *)

Inductive Category := Excellent | Good | Fair | Poor.

Definition Category_string (c : Category) : string :=
  match c with
  | Excellent => "Excellent"
  | Good => "Good"
  | Fair => "Fair"
  | Poor => "Poor"
  end.

Record VisibilityInfo := {
  rating : Z;
  category : Category;
  isIlluminated : bool;
  sunElevation : Q
}.

(** ** solar.ts *)

Module Solar.
Import Coordinates.

Definition EARTH_RADIUS_KM : Q := 6371.0.

Section WithHost.
Context `{JsMath} `{JsDate}.

(** Returns [[elevation, azimuth]] in degrees. *)
Definition calculateSolarPosition (date : Z) (lat lon : Q) : Q * Q :=
  let jd := julianDate date in
  let n := jd - 2451545.0 in
  let L := Js.rem (280.460 + 0.9856474 * n) 360 in
  let g := degToRad (Js.rem (357.528 + 0.9856003 * n) 360) in
  let lambdaSun := L + 1.915 * Math_sin g + 0.020 * Math_sin (2 * g) in
  let epsilon := degToRad (23.439 - 0.0000004 * n) in
  let lambdaRad := degToRad lambdaSun in
  let alpha :=
    radToDeg
      (Math_atan2 (Math_cos epsilon * Math_sin lambdaRad) (Math_cos lambdaRad)) in
  let delta := radToDeg (Math_asin (Math_sin epsilon * Math_sin lambdaRad)) in
  let gmstDeg := Js.rem (radToDeg (gmst jd)) 360 in
  let lha := Js.rem (gmstDeg + lon - alpha) 360 in
  let latRad := degToRad lat in
  let deltaRad := degToRad delta in
  let lhaRad := degToRad lha in
  let sinAlt :=
    Math_sin latRad * Math_sin deltaRad +
    Math_cos latRad * Math_cos deltaRad * Math_cos lhaRad in
  let elevation := radToDeg (Math_asin sinAlt) in
  let cosAz :=
    (Math_sin deltaRad - Math_sin latRad * sinAlt) /
    (Math_cos latRad * Math_cos (Math_asin sinAlt)) in
  let cosAz := Js.Math_max (-1) (Js.Math_min 1 cosAz) in
  let azimuth := radToDeg (Math_acos cosAz) in
  let azimuth := if Js.gtb (Math_sin lhaRad) 0 then 360 - azimuth else azimuth in
  (elevation, azimuth).

Definition isSatelliteIlluminated (satAlt sunElevation : Q) : bool :=
  let earthShadowAngle :=
    - Math_asin (EARTH_RADIUS_KM / (EARTH_RADIUS_KM + satAlt)) * (180 / Math_PI) in
  Js.gtb sunElevation earthShadowAngle.

End WithHost.

Definition calculateVisibilityRating
    (sunElevation : Q) (satIlluminated : bool) (satElevation : Q) : VisibilityInfo :=
  if negb satIlluminated then
    {| rating := 0;
       category := Poor;
       isIlluminated := false;
       sunElevation := sunElevation |}
  else
    let rating := 0 in
    let rating :=
      if Js.leb sunElevation (-18) then rating + 50
      else if Js.leb sunElevation (-12) then rating + 40
      else if Js.leb sunElevation (-6) then rating + 25
      else if Js.ltb sunElevation 0 then rating + 10
      else rating in
    let rating := rating + Js.Math_min 50 ((satElevation / 90) * 50) in
    let category :=
      if Js.geb rating 75 then Excellent
      else if Js.geb rating 50 then Good
      else if Js.geb rating 25 then Fair
      else Poor in
    {| rating := Js.Math_round rating;
       category := category;
       isIlluminated := satIlluminated;
       sunElevation := sunElevation |}.

End Solar.

(** ** Exceptions *)

Inductive Result (A : Type) : Type :=
| Ok (a : A)
| Throw.
Arguments Ok {A} a.
Arguments Throw {A}.

Definition bind {A B : Type} (m : Result A) (k : A -> Result B) : Result B :=
  match m with
  | Ok a => k a
  | Throw => Throw
  end.

Notation "'let*' x ':=' m 'in' k" := (bind m (fun x => k))
  (at level 10, x name, m at level 100, k at level 200).

(** ** satellite.js

    The SGP4 library is outside the repository.  [SatRec] keeps the fields
    the code reads, and the epoch. *)

Record SatRec := {
  error : Z;
  jdsatepoch : Q;
  inclo : Js.number;
  no : Q;
  ecco : Q
}.

Record EciVec3 := { eci_x : Q; eci_y : Q; eci_z : Q }.

Record PositionAndVelocity := {
(** [false] when the model fails *)
  position : option EciVec3;
  velocity : option EciVec3
}.

Record GeodeticLocation := {
  gd_longitude : Q;
  gd_latitude : Q;
  gd_height : Q
}.

Class SatelliteJs := {
  twoline2satrec : string -> string -> Result SatRec;
(** [satellite.propagate]: may throw, may return [false] *)
  sat_propagate : SatRec -> Z -> Result (option PositionAndVelocity);
  gstime : Z -> Result Q;
  eciToGeodetic : EciVec3 -> Q -> Result GeodeticLocation;
  degreesLat : Q -> Result Q;
  degreesLong : Q -> Result Q;
  sat_radiansToDegrees : Js.number -> Js.number
}.

(** ** types, continued *)

Record TLEData := {
  tle_name : string;
  norad_id : string;
  line1 : string;
  line2 : string
}.

Record SatellitePosition := {
  latitude : Q;
  longitude : Q;
  altitude : Q;
  elevation : Q;
  azimuth : Q;
  distance : Q;
  time : Z
}.

Record OrbitalElements := {
  inclination : Js.number;
  meanMotion : Q;
  eccentricity : Q;
  period : Q
}.

(** ** propagator.ts *)

Record SatellitePropagator := {
  satrec : option SatRec;
  name : string;
  noradId : string
}.

Module Propagator.
Section WithHost.
Context `{JsMath} `{JsDate} `{SatelliteJs}.

(** The constructor: a record that throws in the parser, or that the parser
    flags with a non-zero [error], leaves [satrec] at [null]. *)
Definition new (tleData : TLEData) : SatellitePropagator :=
  let satrec :=
    match twoline2satrec (line1 tleData) (line2 tleData) with
    | Ok rec => if (error rec =? 0)%Z then Some rec else None
    | Throw => None
    end in
  {| satrec := satrec;
     name := tle_name tleData;
     noradId := norad_id tleData |}.

Definition isValid (this : SatellitePropagator) : bool :=
  match satrec this with
  | Some _ => true
  | None => false
  end.

Definition getName (this : SatellitePropagator) : string := name this.

Definition getNoradId (this : SatellitePropagator) : string := noradId this.

Definition getOrbitalElements (this : SatellitePropagator) : option OrbitalElements :=
  match satrec this with
  | None => None
  | Some rec =>
      Some {| inclination := sat_radiansToDegrees (inclo rec);
              meanMotion := no rec * 1440 / (2 * Math_PI);
              eccentricity := ecco rec;
              period := (2 * Math_PI) / no rec |}
  end.

(** The body of the [try] block of [propagate]. *)
Definition propagate_try (rec : SatRec) (date : Z) (observerLat observerLon : Q)
  : Result (option SatellitePosition) :=
  let* positionAndVelocity := sat_propagate rec date in
  match positionAndVelocity with
  | None => Ok None
  | Some pv =>
      match position pv with
      | None => Ok None
      | Some positionEci =>
          let* gmst := gstime date in
          let* positionGd := eciToGeodetic positionEci gmst in
          let* satLat := degreesLat (gd_latitude positionGd) in
          let* satLon := degreesLong (gd_longitude positionGd) in
          let satAlt := gd_height positionGd in
          let elevation :=
            Coordinates.calculateElevation satLat satLon satAlt observerLat observerLon in
          let azimuth :=
            Coordinates.calculateAzimuth satLat satLon observerLat observerLon in
          let distance :=
            Coordinates.calculateGroundDistance satLat satLon satAlt observerLat observerLon in
          Ok (Some {| latitude := satLat;
                      longitude := satLon;
                      altitude := satAlt;
                      elevation := elevation;
                      azimuth := azimuth;
                      distance := distance;
                      time := date |})
      end
  end.

Definition propagate (this : SatellitePropagator) (date : Z)
    (observerLat observerLon : Q) : option SatellitePosition :=
  match satrec this with
  | None => None
  | Some rec =>
      match propagate_try rec date observerLat observerLon with
      | Ok r => r
      | Throw => None
      end
  end.

Definition calculateVisibility (this : SatellitePropagator)
    (position : SatellitePosition) (observerLat observerLon : Q) : VisibilityInfo :=
  let '(sunElevation, _) :=
    Solar.calculateSolarPosition (time position) observerLat observerLon in
  let satIlluminated := Solar.isSatelliteIlluminated (altitude position) sunElevation in
  Solar.calculateVisibilityRating sunElevation satIlluminated (elevation position).

Definition couldBeVisible (this : SatellitePropagator) (observerLat : Q) : bool :=
  match satrec this with
  | None => false
  | Some _ =>
      match getOrbitalElements this with
      | None => false
      | Some elements =>
          let absLat := Js.Math_abs observerLat in
          if Js.num_geb (inclination elements) (Js.Finite absLat)
             && Js.num_leb (inclination elements) (Js.Finite (180 - absLat))
          then true
          else if Js.num_geb (inclination elements) (Js.Finite (180 - absLat))
                  || Js.num_leb (inclination elements) (Js.Finite absLat)
          then true
          else false
      end
  end.

End WithHost.
End Propagator.

(** ** types: observer, parameters, pass records *)

Module Observer.
Record t := {
  latitude : Q;
  longitude : Q;
  elevation_m : Q;
  location_name : string
}.
End Observer.

Module Parameters.
Record t := {
  min_elevation_deg : Q;
  max_distance_km : Q;
  hours_ahead : Q
}.
End Parameters.

Module SatellitePass.
(** The time stamps are ISO-8601 strings.  [start_direction] and
    [movement_direction] hold what [azimuthToDirection] returned;
    [movement_azimuth] and [movement_direction] are the optional fields. *)
Record t := {
  satellite : string;
  start_time_utc : string;
  start_time_local : string;
  max_elevation : Z;
  max_elevation_time_utc : string;
  max_elevation_time_local : string;
  end_time_utc : string;
  end_time_local : string;
  duration_seconds : Z;
  max_distance_km : Z;
  positions : list (string * Q * Q * Q * Q);
  visibility_rating : Z;
  visibility_category : string;
  start_azimuth : Z;
  start_direction : option string;
  movement_azimuth : option Z;
  movement_direction : option string
}.
End SatellitePass.

(** [s.slice(0, -1)]: the string without its last character. *)
Fixpoint slice_0_neg1 (s : string) : string :=
  match s with
  | EmptyString => EmptyString
  | String c EmptyString => EmptyString
  | String c rest => String c (slice_0_neg1 rest)
  end.

(** ** Loops

    [while (cond) body] run for at most [fuel] rounds.  The two loops of
    calculator.ts step a clock by a fixed amount up to a bound; [rounds]
    counts their iterations, and [while_rounds] below shows that this many
    rounds leave the loop by its condition. *)

Fixpoint while {S : Type} (fuel : nat) (cond : S -> bool) (body : S -> S) (s : S) : S :=
  match fuel with
  | O => s
  | Datatypes.S fuel' => if cond s then while fuel' cond body (body s) else s
  end.

Definition rounds (from to step : Z) : nat :=
  Z.to_nat ((to - from) / step + 1).

(** ** calculator.ts *)

Record PassCalculator := {
  observer : Observer.t;
  parameters : Parameters.t
}.

Module Refine.
(** The local variables of [refinePass] that its loop updates. *)
Record state := {
  currentTime : Z;
  maxElevation : Q;
  maxElevationTime : option Z;
  maxElevationPosition : option SatellitePosition;
  passStartTime : option Z;
  passEndTime : option Z;
  positions : list SatellitePosition
}.
End Refine.

Module Coarse.
(** The local variables of [findSatellitePasses]. *)
Record state := {
  currentTime : Z;
  wasVisible : bool;
  passStart : option Z;
  passPositions : list SatellitePosition;
  passes : list SatellitePass.t
}.
End Coarse.

Module Calculator.
Section WithHost.
Context `{JsMath} `{JsDate} `{SatelliteJs}.

Definition filterCandidateSatellites (this : PassCalculator)
  : list TLEData -> list TLEData :=
  fix loop (satellites : list TLEData) : list TLEData :=
    match satellites with
    | [] => []
    | sat :: rest =>
        let propagator := Propagator.new sat in
        if negb (Propagator.isValid propagator) then loop rest
        else if Propagator.couldBeVisible propagator (Observer.latitude (observer this))
        then sat :: loop rest
        else loop rest
    end.

Definition fineStep : Z := 10 * 1000.

Definition refineInit (searchStart : Z) : Refine.state :=
  {| Refine.currentTime := searchStart;
     Refine.maxElevation := 0;
     Refine.maxElevationTime := None;
     Refine.maxElevationPosition := None;
     Refine.passStartTime := None;
     Refine.passEndTime := None;
     Refine.positions := [] |}.

(** One round of the loop of [refinePass]. *)
Definition refineBody (this : PassCalculator) (propagator : SatellitePropagator)
    (s : Refine.state) : Refine.state :=
  let currentTime := Refine.currentTime s in
  let position :=
    Propagator.propagate propagator currentTime
      (Observer.latitude (observer this)) (Observer.longitude (observer this)) in
  let s :=
    match position with
    | Some position =>
        if Js.geb (elevation position) (Parameters.min_elevation_deg (parameters this))
        then
          let passStartTime :=
            match Refine.passStartTime s with
            | None => Some currentTime
            | Some t => Some t
            end in
          let positions := Refine.positions s ++ [position] in
          let passEndTime := Some currentTime in
          if Js.gtb (elevation position) (Refine.maxElevation s) then
            {| Refine.currentTime := currentTime;
               Refine.maxElevation := elevation position;
               Refine.maxElevationTime := Some currentTime;
               Refine.maxElevationPosition := Some position;
               Refine.passStartTime := passStartTime;
               Refine.passEndTime := passEndTime;
               Refine.positions := positions |}
          else
            {| Refine.currentTime := currentTime;
               Refine.maxElevation := Refine.maxElevation s;
               Refine.maxElevationTime := Refine.maxElevationTime s;
               Refine.maxElevationPosition := Refine.maxElevationPosition s;
               Refine.passStartTime := passStartTime;
               Refine.passEndTime := passEndTime;
               Refine.positions := positions |}
        else s
    | None => s
    end in
  {| Refine.currentTime := (currentTime + fineStep)%Z;
     Refine.maxElevation := Refine.maxElevation s;
     Refine.maxElevationTime := Refine.maxElevationTime s;
     Refine.maxElevationPosition := Refine.maxElevationPosition s;
     Refine.passStartTime := Refine.passStartTime s;
     Refine.passEndTime := Refine.passEndTime s;
     Refine.positions := Refine.positions s |}.

(** The loop of [refinePass], from the initial values of its variables. *)
Definition refineLoop (this : PassCalculator) (propagator : SatellitePropagator)
    (approxStart approxEnd : Z) : Refine.state :=
  let searchStart := (approxStart - 2 * 60 * 1000)%Z in
  let searchEnd := (approxEnd + 2 * 60 * 1000)%Z in
  while (rounds searchStart searchEnd fineStep)
    (fun s => (Refine.currentTime s <=? searchEnd)%Z)
    (refineBody this propagator)
    (refineInit searchStart).

Definition tzOffset : Z := 2 * 60 * 60 * 1000.

Definition formatLocal (date : Z) : string :=
  let local := (date + tzOffset)%Z in
  slice_0_neg1 (toISOString local).

Definition refinePass (this : PassCalculator) (propagator : SatellitePropagator)
    (approxStart approxEnd : Z) : option SatellitePass.t :=
  let s := refineLoop this propagator approxStart approxEnd in
  let maxElevation := Refine.maxElevation s in
  let positions := Refine.positions s in
  match Refine.passStartTime s, Refine.passEndTime s,
        Refine.maxElevationTime s, Refine.maxElevationPosition s with
  | Some passStartTime, Some passEndTime,
    Some maxElevationTime, Some maxElevationPosition =>
      if (List.length positions <? 2)%nat then None
      else if Js.gtb (distance maxElevationPosition)
                (Parameters.max_distance_km (parameters this))
      then None
      else
        let visibility :=
          Propagator.calculateVisibility propagator maxElevationPosition
            (Observer.latitude (observer this)) (Observer.longitude (observer this)) in
        match positions with
        | [] => None (* excluded by the length test above *)
        | startPosition :: _ =>
            let startAzimuth := Js.Math_round (azimuth startPosition) in
            let startDirection := Coordinates.azimuthToDirection (inject_Z startAzimuth) in
            let '(movementAzimuth, movementDirection) :=
              if (3 <=? List.length positions)%nat then
                let midIndex := (List.length positions / 2)%nat in
                let midPosition := nth midIndex positions startPosition in
                let movementAzimuth := Js.Math_round (azimuth midPosition) in
                (Some movementAzimuth,
                 Coordinates.azimuthToDirection (inject_Z movementAzimuth))
              else if (2 <=? List.length positions)%nat then
                let lastPosition := nth (List.length positions - 1) positions startPosition in
                let movementAzimuth := Js.Math_round (azimuth lastPosition) in
                (Some movementAzimuth,
                 Coordinates.azimuthToDirection (inject_Z movementAzimuth))
              else (None, None) in
            Some
              {| SatellitePass.satellite := Propagator.getName propagator;
                 SatellitePass.start_time_utc := toISOString passStartTime;
                 SatellitePass.start_time_local := formatLocal passStartTime;
                 SatellitePass.max_elevation := Js.Math_round maxElevation;
                 SatellitePass.max_elevation_time_utc := toISOString maxElevationTime;
                 SatellitePass.max_elevation_time_local := formatLocal maxElevationTime;
                 SatellitePass.end_time_utc := toISOString passEndTime;
                 SatellitePass.end_time_local := formatLocal passEndTime;
                 SatellitePass.duration_seconds :=
                   Js.Math_round (inject_Z (passEndTime - passStartTime) / 1000);
                 SatellitePass.max_distance_km :=
                   Js.Math_round (distance maxElevationPosition);
                 SatellitePass.positions := [];
                 SatellitePass.visibility_rating := rating visibility;
                 SatellitePass.visibility_category :=
                   Category_string (category visibility);
                 SatellitePass.start_azimuth := startAzimuth;
                 SatellitePass.start_direction := startDirection;
                 SatellitePass.movement_azimuth := movementAzimuth;
                 SatellitePass.movement_direction := movementDirection |}
        end
  | _, _, _, _ => None
  end.

Definition coarseStep : Z := 5 * 60 * 1000.

Definition coarseInit (startTime : Z) : Coarse.state :=
  {| Coarse.currentTime := startTime;
     Coarse.wasVisible := false;
     Coarse.passStart := None;
     Coarse.passPositions := [];
     Coarse.passes := [] |}.

(** One round of the coarse scan of [findSatellitePasses]; [notVisible] is
    the [else] branch of its test. *)
Definition coarseBody (this : PassCalculator) (propagator : SatellitePropagator)
    (s : Coarse.state) : Coarse.state :=
  let currentTime := Coarse.currentTime s in
  let position :=
    Propagator.propagate propagator currentTime
      (Observer.latitude (observer this)) (Observer.longitude (observer this)) in
  let notVisible :=
    match Coarse.wasVisible s, Coarse.passStart s with
    | true, Some passStart =>
        let refinedPass := refinePass this propagator passStart currentTime in
        let passes :=
          match refinedPass with
          | Some pass => Coarse.passes s ++ [pass]
          | None => Coarse.passes s
          end in
        {| Coarse.currentTime := currentTime;
           Coarse.wasVisible := false;
           Coarse.passStart := None;
           Coarse.passPositions := [];
           Coarse.passes := passes |}
    | _, _ => s
    end in
  let s :=
    match position with
    | Some position =>
        if Js.geb (elevation position) (Parameters.min_elevation_deg (parameters this))
        then
          if negb (Coarse.wasVisible s) then
            {| Coarse.currentTime := currentTime;
               Coarse.wasVisible := true;
               Coarse.passStart := Some currentTime;
               Coarse.passPositions := [position];
               Coarse.passes := Coarse.passes s |}
          else
            {| Coarse.currentTime := currentTime;
               Coarse.wasVisible := Coarse.wasVisible s;
               Coarse.passStart := Coarse.passStart s;
               Coarse.passPositions := Coarse.passPositions s ++ [position];
               Coarse.passes := Coarse.passes s |}
        else notVisible
    | None => notVisible
    end in
  {| Coarse.currentTime := (currentTime + coarseStep)%Z;
     Coarse.wasVisible := Coarse.wasVisible s;
     Coarse.passStart := Coarse.passStart s;
     Coarse.passPositions := Coarse.passPositions s;
     Coarse.passes := Coarse.passes s |}.

Definition findSatellitePasses (this : PassCalculator) (propagator : SatellitePropagator)
    (startTime endTime : Z) : list SatellitePass.t :=
  let s :=
    while (rounds startTime endTime coarseStep)
      (fun s => (Coarse.currentTime s <=? endTime)%Z)
      (coarseBody this propagator)
      (coarseInit startTime) in
  match Coarse.wasVisible s, Coarse.passStart s with
  | true, Some passStart =>
      match refinePass this propagator passStart endTime with
      | Some refinedPass => Coarse.passes s ++ [refinedPass]
      | None => Coarse.passes s
      end
  | _, _ => Coarse.passes s
  end.

(** The passes the generator [findPasses] yields, in order. *)
Definition findPasses (this : PassCalculator) (satellites : list TLEData)
    (startTime endTime : Z) : list SatellitePass.t :=
  let candidates := filterCandidateSatellites this satellites in
  (fix loop (candidates : list TLEData) : list SatellitePass.t :=
     match candidates with
     | [] => []
     | satTle :: rest =>
         let propagator := Propagator.new satTle in
         if negb (Propagator.isValid propagator) then loop rest
         else
           let passes := findSatellitePasses this propagator startTime endTime in
           passes ++ loop rest
     end) candidates.

End WithHost.
End Calculator.

(** ** types: datasets *)

Module TLEDataset.
Record t := {
  observer : Observer.t;
  parameters : Parameters.t;
  satellites : list TLEData;
  total_satellites : Z;
  cache_expires_at : string
}.
End TLEDataset.

Module PassesData.
Record t := {
  observer : Observer.t;
  parameters : Parameters.t;
  generated_at : string;
  total_passes : Z;
  passes : list SatellitePass.t
}.
End PassesData.

(** ** orbitManager.ts

    The fields of an [OrbitManager]; a method returns the fields it leaves
    behind together with its value.  The readings of the clock ([new Date()])
    are arguments. *)

Record OrbitManager := {
  tleDataset : option TLEDataset.t;
  calculatedPasses : list SatellitePass.t
}.

Module Manager.
Section WithHost.
Context `{JsMath} `{JsDate} `{SatelliteJs}.

Definition getPassesData (this : OrbitManager) (clock : Z) : Result PassesData.t :=
  match tleDataset this with
  | None => Throw
  | Some dataset =>
      Ok {| PassesData.observer := TLEDataset.observer dataset;
            PassesData.parameters := TLEDataset.parameters dataset;
            PassesData.generated_at := toISOString clock;
            PassesData.total_passes := Z.of_nat (List.length (calculatedPasses this));
            PassesData.passes := calculatedPasses this |}
  end.

(** The comparator handed to [sort]. *)
Definition byStartTime (a b : SatellitePass.t) : Z :=
  (Date_parse (SatellitePass.start_time_utc a) -
   Date_parse (SatellitePass.start_time_utc b))%Z.

(** [calculatePasses(hoursAhead = 24)]; [now] is the clock when the search
    starts, [clock] when the dataset is stamped. *)
Definition calculatePasses (this : OrbitManager) (hoursAhead : option Q)
    (now clock : Z) : Result (PassesData.t * OrbitManager) :=
  let hoursAhead := match hoursAhead with Some h => h | None => 24 end in
  match tleDataset this with
  | None => Throw
  | Some dataset =>
      let calculator :=
        {| observer := TLEDataset.observer dataset;
           parameters := TLEDataset.parameters dataset |} in
      let endTime := Js.new_Date (inject_Z now + hoursAhead * 60 * 60 * 1000) in
      let calculatedPasses := [] in
      let calculatedPasses :=
        fold_left (fun acc pass => acc ++ [pass])
          (Calculator.findPasses calculator (TLEDataset.satellites dataset) now endTime)
          calculatedPasses in
      let calculatedPasses := Js.Array_sort byStartTime calculatedPasses in
      let this :=
        {| tleDataset := tleDataset this;
           calculatedPasses := calculatedPasses |} in
      let* data := getPassesData this clock in
      Ok (data, this)
  end.

End WithHost.
End Manager.

(** ** main.ts

    The parts of [StarlinkPassTracker] that compute what is shown: the pass
    picked as the next one, the rows of the table and the countdown.  The
    writes to the page, the timers and the network are left out; the locale
    formatting of a date and [toLowerCase] are taken from the host. *)

Class JsLocale := {
  (** [date.toLocaleString('fi-FI', options)] with the options of
      [formatTime] *)
  toLocaleString : Z -> string;
  (** [s.toLowerCase()] *)
  toLowerCase : string -> string
}.

Module Tracker.

(** [String(n)] for an integer-valued number. *)
Definition Number_toString (n : Z) : string :=
  NilZero.string_of_int (Z.to_int n).

(** [value || fallback] for a string that may be [undefined]: the fallback
    replaces [undefined] and the empty string. *)
Definition orString (value : option string) (fallback : string) : string :=
  match value with
  | Some s => if String.eqb s "" then fallback else s
  | None => fallback
  end.

(** [value || 0] for a number that may be [undefined]. *)
Definition orZero (value : option Z) : Z :=
  match value with
  | Some n => if (n =? 0)%Z then 0%Z else n
  | None => 0%Z
  end.

Definition getElevationClass (elevation : Q) : string :=
  if Js.geb elevation 60 then "elevation-high"
  else if Js.geb elevation 30 then "elevation-medium"
  else "elevation-low".

Definition excellent_star : string := "★".
Definition good_half : string := "◐".
Definition fair_quarter : string := "◔".
Definition other_circle : string := "○".

Definition getVisibilityEmoji (category : string) : string :=
  if String.eqb category "excellent" then excellent_star
  else if String.eqb category "good" then good_half
  else if String.eqb category "fair" then fair_quarter
  else other_circle.

(** The hours, minutes and seconds the countdown shows for a positive
    difference in milliseconds. *)
Definition countdownParts (diff : Z) : Z * Z * Z :=
  let hours := Js.Math_floor (inject_Z diff / 3600000) in
  let minutes := Js.Math_floor (inject_Z (Z.rem diff 3600000) / 60000) in
  let seconds := Js.Math_floor (inject_Z (Z.rem diff 60000) / 1000) in
  (hours, minutes, seconds).

(** The text [update] writes to the countdown element; [now] is the clock. *)
Definition countdownText (targetDate now : Z) : string :=
  let diff := (targetDate - now)%Z in
  if (diff <=? 0)%Z then "NYT!"
  else
    let '(hours, minutes, seconds) := countdownParts diff in
    (Number_toString hours ++ "h " ++ Number_toString minutes ++ "min "
     ++ Number_toString seconds ++ "s")%string.

Section WithHost.
Context `{JsDate} `{JsLocale}.

Definition formatTime (isoString : string) : string :=
  let date := Date_parse isoString in
  toLocaleString date.

(** The passes [displayNextPass] keeps: those that start after [now]. *)
Definition futurePasses (passesData : PassesData.t) (now : Z) : list SatellitePass.t :=
  filter (fun p => (now <? Date_parse (SatellitePass.start_time_utc p))%Z)
    (PassesData.passes passesData).

(** The pass [displayNextPass] shows, [futurePasses[0]]; without one the
    display is cleared. *)
Definition nextPass (passesData : PassesData.t) (now : Z) : option SatellitePass.t :=
  match futurePasses passesData now with
  | [] => None
  | next :: _ => Some next
  end.

(** The cells of a row of the table. *)
Record row := {
  displayIndex : Z;
  satelliteCell : string;
  timeCell : string;
  appearDir : string;
  appearAz : Z;
  moveDir : string;
  moveAz : Z;
  elevClass : string;
  elevationCell : Z;
  visibilityClass : string;
  visibilityEmoji : string;
  visibilityCell : string
}.

(** One call of the [forEach] callback of [displayPassesTable]: the counter
    and the rows appended so far. *)
Definition tableStep (now : Z) (acc : Z * list row) (pass : SatellitePass.t)
  : Z * list row :=
  let '(displayIndex, rows) := acc in
  let startTime := Date_parse (SatellitePass.start_time_utc pass) in
  let isPast := (startTime <? now)%Z in
  if isPast then (displayIndex, rows)
  else
    let displayIndex := (displayIndex + 1)%Z in
    let elevClass := getElevationClass (inject_Z (SatellitePass.max_elevation pass)) in
    let visibilityCategory :=
      toLowerCase (orString (Some (SatellitePass.visibility_category pass)) "Unknown") in
    let visibilityClass := ("visibility-" ++ visibilityCategory)%string in
    let visibilityEmoji := getVisibilityEmoji visibilityCategory in
    let appearDir := orString (SatellitePass.start_direction pass) "N" in
    let appearAz := orZero (Some (SatellitePass.start_azimuth pass)) in
    let moveDir := orString (SatellitePass.movement_direction pass) "N" in
    let moveAz := orZero (SatellitePass.movement_azimuth pass) in
    (displayIndex,
     rows ++
     [{| displayIndex := displayIndex;
         satelliteCell := SatellitePass.satellite pass;
         timeCell := formatTime (SatellitePass.start_time_local pass);
         appearDir := appearDir;
         appearAz := appearAz;
         moveDir := moveDir;
         moveAz := moveAz;
         elevClass := elevClass;
         elevationCell := SatellitePass.max_elevation pass;
         visibilityClass := visibilityClass;
         visibilityEmoji := visibilityEmoji;
         visibilityCell :=
           orString (Some (SatellitePass.visibility_category pass)) "N/A" |}]).

(** The rows of the table, in the order they are appended. *)
Definition tableRows (passesData : PassesData.t) (now : Z) : list row :=
  snd (fold_left (tableStep now) (PassesData.passes passesData) (0%Z, [])).

End WithHost.
End Tracker.

(** ** The coarse samples of a search

    The vocabulary of the properties of [findSatellitePasses]. *)

Module Scan.
Section WithHost.
Context `{JsMath} `{JsDate} `{SatelliteJs}.

(** The [i]-th instant of a coarse scan that starts at [startTime]. *)
Definition coarseInstant (startTime : Z) (i : nat) : Z :=
  (startTime + Z.of_nat i * Calculator.coarseStep)%Z.

(** The instants the coarse scan visits: five minutes apart, from
    [startTime] up to [endTime]. *)
Definition coarseInstants (startTime endTime : Z) : list Z :=
  map (coarseInstant startTime) (seq 0 (rounds startTime endTime Calculator.coarseStep)).

(** The test both scans apply to the instant [t]: the satellite has a
    position and its elevation reaches the configured minimum. *)
Definition qualifiesAt (this : PassCalculator) (propagator : SatellitePropagator)
    (t : Z) : bool :=
  match Propagator.propagate propagator t
          (Observer.latitude (observer this)) (Observer.longitude (observer this)) with
  | Some position =>
      Js.geb (elevation position) (Parameters.min_elevation_deg (parameters this))
  | None => false
  end.

(** What the variables of the coarse scan hold after [k] rounds: the clock,
    where each pass found so far comes from, and where an open run began. *)
Definition coarse_inv (this : PassCalculator) (propagator : SatellitePropagator)
    (startTime : Z) (k : nat) (s : Coarse.state) : Prop :=
  Coarse.currentTime s = coarseInstant startTime k /\
  (forall pass, In pass (Coarse.passes s) ->
     exists i j, (i < j < k)%nat /\
       qualifiesAt this propagator (coarseInstant startTime i) = true /\
       Calculator.refinePass this propagator
         (coarseInstant startTime i) (coarseInstant startTime j) = Some pass) /\
  (Coarse.wasVisible s = true ->
     exists i, (i < k)%nat /\
       qualifiesAt this propagator (coarseInstant startTime i) = true /\
       Coarse.passStart s = Some (coarseInstant startTime i)).

End WithHost.
End Scan.

(** ** The fine samples of a refinement window

    The vocabulary of the properties of [refinePass]: the instants the fine
    scan visits, and the samples that qualify, each with its instant. *)

Module Window.
Section WithHost.
Context `{JsMath} `{JsDate} `{SatelliteJs}.
Variable this : PassCalculator.
Variable propagator : SatellitePropagator.

(** The first [k] instants of a scan that starts at [searchStart]. *)
Definition instantsUpTo (searchStart : Z) (k : nat) : list Z :=
  map (fun i => (searchStart + Z.of_nat i * Calculator.fineStep)%Z) (seq 0 k).

(** The instants from two minutes before [approxStart] to two minutes after
    [approxEnd], ten seconds apart. *)
Definition fineInstants (approxStart approxEnd : Z) : list Z :=
  let searchStart := (approxStart - 2 * 60 * 1000)%Z in
  let searchEnd := (approxEnd + 2 * 60 * 1000)%Z in
  instantsUpTo searchStart (rounds searchStart searchEnd Calculator.fineStep).

(** The sample at instant [t], when it qualifies: the satellite has a
    position and its elevation reaches the configured minimum. *)
Definition sampleAt (t : Z) : list (Z * SatellitePosition) :=
  match Propagator.propagate propagator t
          (Observer.latitude (observer this)) (Observer.longitude (observer this)) with
  | Some position =>
      if Js.geb (elevation position) (Parameters.min_elevation_deg (parameters this))
      then [(t, position)]
      else []
  | None => []
  end.

Definition qualifyingUpTo (searchStart : Z) (k : nat) : list (Z * SatellitePosition) :=
  flat_map sampleAt (instantsUpTo searchStart k).

(** The qualifying fine samples of a window, in the order of the scan. *)
Definition qualifyingSamples (approxStart approxEnd : Z) : list (Z * SatellitePosition) :=
  flat_map sampleAt (fineInstants approxStart approxEnd).

(** What the variables of the loop hold after [k] rounds. *)
Record refine_inv (searchStart : Z) (k : nat) (s : Refine.state) : Prop := {
  inv_clock :
    Refine.currentTime s = (searchStart + Z.of_nat k * Calculator.fineStep)%Z;
  inv_positions :
    Refine.positions s = map snd (qualifyingUpTo searchStart k);
  inv_start :
    Refine.passStartTime s = option_map fst (hd_error (qualifyingUpTo searchStart k));
  inv_end :
    Refine.passEndTime s =
    option_map fst (hd_error (rev (qualifyingUpTo searchStart k)));
  inv_nopeak :
    Refine.maxElevationPosition s = None ->
    Refine.maxElevationTime s = None /\ Refine.maxElevation s = 0 /\
    forall t p, In (t, p) (qualifyingUpTo searchStart k) -> elevation p <= 0;
  inv_peak :
    forall p, Refine.maxElevationPosition s = Some p ->
    exists t, In (t, p) (qualifyingUpTo searchStart k) /\
      Refine.maxElevationTime s = Some t /\
      Refine.maxElevation s = elevation p /\
      0 < elevation p /\
      forall t' p', In (t', p') (qualifyingUpTo searchStart k) ->
        elevation p' <= elevation p
}.

End WithHost.
End Window.

(** ** Vocabulary of the properties *)

(** The bearing of [Math.atan2], in degrees, is never below -180. *)
Definition atan2_lower_bound `{JsMath} : Prop :=
  forall y x, -180 <= Coordinates.radToDeg (Math_atan2 y x).

(** The two-line encoding of a record fails to parse: the parser throws, or
    it flags the record with an error code. *)
Definition parseFails `{SatelliteJs} (tleData : TLEData) : Prop :=
  match twoline2satrec (line1 tleData) (line2 tleData) with
  | Ok rec => error rec <> 0%Z
  | Throw => True
  end.

(** A number proper, not NaN. *)
Definition isNumber (x : Js.number) : bool :=
  match x with
  | Js.Finite _ => true
  | Js.NaN => false
  end.

(** The rule the specification words for [couldBeVisible]: the inclination
    is at least the observer's absolute latitude, or at least 180 degrees
    less that latitude. *)
Definition inclinationReaches (i : Js.number) (observerLat : Q) : bool :=
  Js.num_geb i (Js.Finite (Js.Math_abs observerLat))
  || Js.num_geb i (Js.Finite (180 - Js.Math_abs observerLat)).

(** The compass point at a bearing of 45k degrees; k = 8 is north again. *)
Definition compassPoint (k : Z) : option string :=
  match k with
  | 0%Z => Some "N"%string
  | 1%Z => Some "NE"%string
  | 2%Z => Some "E"%string
  | 3%Z => Some "SE"%string
  | 4%Z => Some "S"%string
  | 5%Z => Some "SW"%string
  | 6%Z => Some "W"%string
  | 7%Z => Some "NW"%string
  | 8%Z => Some "N"%string
  | _ => None
  end.

(** The visibility rating as the specification words it: a darkness
    component stepped at the twilight thresholds, an elevation component
    linear in the satellite's elevation and capped at 50, and the category
    read off the thresholds 75, 50 and 25. *)
Module RatingSpec.

Definition darkness (sunElevation : Q) : Q :=
  if Qle_bool sunElevation (-18) then 50
  else if Qle_bool sunElevation (-12) then 40
  else if Qle_bool sunElevation (-6) then 25
  else if Qle_bool 0 sunElevation then 0
  else 10.

Definition elevationPoints (satElevation : Q) : Q :=
  Qmin 50 (satElevation / 90 * 50).

Definition categoryOf (points : Q) : Category :=
  if Qle_bool 75 points then Excellent
  else if Qle_bool 50 points then Good
  else if Qle_bool 25 points then Fair
  else Poor.

End RatingSpec.

(** ** A small host for running the code

    A stand-in for the browser and for satellite.js, used to run the
    program on concrete inputs.  Angles are kept in degrees ([Math_PI] is
    180), the ground distance is constant, and the elevation of a satellite
    is the height its orbit model reports, limited to [-180, 180].  The
    orbit model reads the satellite off the second TLE line:
    - ["high"]: height 45 at the instants 600000 .. 620000 ms, -10 otherwise;
    - ["low"]: height 10.4 at the instants 0 .. 10000 ms, -10 otherwise;
    - anything else: height -5 at every instant.
    The inclination is 10 degrees, except that a second line ["garbled"]
    gives NaN.
    A first line ["throw"] makes the parser throw, ["flag"] makes it set
    [error]. *)

Module TestHost.

#[local] Open Scope string_scope.

#[export] Instance math : JsMath := {|
  Math_PI := 180;
  Math_sin := fun _ => 0;
  Math_cos := fun _ => 1;
  Math_asin := fun _ => 1 # 2;
  Math_acos := fun _ => 0;
  Math_atan2 := fun y _ => Qmax (-180) (Qmin 180 y);
  Math_sqrt := fun _ => 1499.6
|}.

(** Time stamps print as decimal numerals. *)
Definition print_time (t : Z) : string :=
  NilZero.string_of_int (Z.to_int t).

Definition read_time (s : string) : Z :=
  match NilZero.int_of_string s with
  | Some i => Z.of_int i
  | None => 0
  end.

#[export] Instance date : JsDate := {|
  getUTCFullYear := fun _ => 2025%Z;
  getUTCMonth := fun _ => 0%Z;
  getUTCDate := fun _ => 1%Z;
  getUTCHours := fun _ => 0%Z;
  getUTCMinutes := fun _ => 0%Z;
  getUTCSeconds := fun _ => 0%Z;
  toISOString := fun t => print_time t ++ "Z";
  Date_parse := fun s => read_time (slice_0_neg1 s)
|}.

(** The height inside the window is carried in [ecco], the first and last
    instant of the window in [jdsatepoch] and [no]. *)
Definition parse (line1 line2 : string) : Result SatRec :=
  if String.eqb line1 "throw" then Throw
  else
    let error := if String.eqb line1 "flag" then 1%Z else 0%Z in
    let '(height, first, last) :=
      if String.eqb line2 "high" then (45, 600000, 620000)
      else if String.eqb line2 "low" then (10.4, 0, 10000)
      else (-5, 0, 10000) in
    let inclo := if String.eqb line2 "garbled" then Js.NaN else Js.Finite (1 # 6) in
    Ok {| error := error; jdsatepoch := first; inclo := inclo;
          no := last; ecco := height |}.

Definition orbit (rec : SatRec) (date : Z) : Result (option PositionAndVelocity) :=
  let height :=
    if Js.leb (jdsatepoch rec) (inject_Z date) && Js.leb (inject_Z date) (no rec)
    then ecco rec
    else if Js.ltb (ecco rec) 0 then ecco rec
    else -10 in
  Ok (Some {| position := Some {| eci_x := height; eci_y := 0; eci_z := 0 |};
              velocity := None |}).

#[export] Instance satellitejs : SatelliteJs := {|
  twoline2satrec := parse;
  sat_propagate := orbit;
  gstime := fun _ => Ok 0;
  eciToGeodetic := fun p _ =>
    Ok {| gd_longitude := 0; gd_latitude := 0; gd_height := eci_x p |};
  degreesLat := fun r => Ok r;
  degreesLong := fun r => Ok r;
  sat_radiansToDegrees := fun r =>
    match r with
    | Js.Finite q => Js.Finite (q * 60)
    | Js.NaN => Js.NaN
    end
|}.

(** Lower case of the letters A to Z. *)
Definition lower_ascii (c : Ascii.ascii) : Ascii.ascii :=
  let n := Ascii.nat_of_ascii c in
  if (65 <=? n)%nat && (n <=? 90)%nat then Ascii.ascii_of_nat (n + 32) else c.

Fixpoint lower (s : string) : string :=
  match s with
  | EmptyString => EmptyString
  | String c rest => String (lower_ascii c) (lower rest)
  end.

#[export] Instance locale : JsLocale := {|
  toLocaleString := print_time;
  toLowerCase := lower
|}.

Definition tle (line1 line2 : string) : TLEData :=
  {| tle_name := line2; norad_id := "0"; line1 := line1; line2 := line2 |}.

Definition jyvaskyla : Observer.t :=
  {| Observer.latitude := 62.2426;
     Observer.longitude := 25.7473;
     Observer.elevation_m := 100;
     Observer.location_name := "Jyvaskyla" |}.

Definition calculator (min_elevation_deg max_distance_km : Q) : PassCalculator :=
  {| observer := jyvaskyla;
     parameters :=
       {| Parameters.min_elevation_deg := min_elevation_deg;
          Parameters.max_distance_km := max_distance_km;
          Parameters.hours_ahead := 24 |} |}.

(** The three satellites and a record the parser rejects. *)
Definition high : SatellitePropagator := Propagator.new (tle "1" "high").
Definition low : SatellitePropagator := Propagator.new (tle "1" "low").
Definition under : SatellitePropagator := Propagator.new (tle "1" "under").
Definition flagged : TLEData := tle "flag" "high".
Definition throwing : TLEData := tle "throw" "high".
Definition garbled : SatellitePropagator := Propagator.new (tle "1" "garbled").

(** The pass of ["high"] and the pass of ["low"], as the code reports them. *)
Definition highPass : SatellitePass.t :=
  {| SatellitePass.satellite := "high";
     SatellitePass.start_time_utc := "600000Z";
     SatellitePass.start_time_local := "7800000";
     SatellitePass.max_elevation := 45;
     SatellitePass.max_elevation_time_utc := "600000Z";
     SatellitePass.max_elevation_time_local := "7800000";
     SatellitePass.end_time_utc := "620000Z";
     SatellitePass.end_time_local := "7820000";
     SatellitePass.duration_seconds := 20;
     SatellitePass.max_distance_km := 1500;
     SatellitePass.positions := [];
     SatellitePass.visibility_rating := 25;
     SatellitePass.visibility_category := "Fair";
     SatellitePass.start_azimuth := 0;
     SatellitePass.start_direction := Some "N";
     SatellitePass.movement_azimuth := Some 0%Z;
     SatellitePass.movement_direction := Some "N" |}.

Definition lowPass : SatellitePass.t :=
  {| SatellitePass.satellite := "low";
     SatellitePass.start_time_utc := "0Z";
     SatellitePass.start_time_local := "7200000";
     SatellitePass.max_elevation := 10;
     SatellitePass.max_elevation_time_utc := "0Z";
     SatellitePass.max_elevation_time_local := "7200000";
     SatellitePass.end_time_utc := "10000Z";
     SatellitePass.end_time_local := "7210000";
     SatellitePass.duration_seconds := 10;
     SatellitePass.max_distance_km := 1500;
     SatellitePass.positions := [];
     SatellitePass.visibility_rating := 6;
     SatellitePass.visibility_category := "Poor";
     SatellitePass.start_azimuth := 0;
     SatellitePass.start_direction := Some "N";
     SatellitePass.movement_azimuth := Some 0%Z;
     SatellitePass.movement_direction := Some "N" |}.

Definition manager : OrbitManager :=
  {| tleDataset :=
       Some {| TLEDataset.observer := jyvaskyla;
               TLEDataset.parameters := parameters (calculator 10 1500);
               TLEDataset.satellites := [tle "1" "high"; flagged; tle "1" "low"];
               TLEDataset.total_satellites := 3;
               TLEDataset.cache_expires_at := "" |};
     calculatedPasses := [] |}.

Definition passesData : PassesData.t :=
  {| PassesData.observer := jyvaskyla;
     PassesData.parameters := parameters (calculator 10 1500);
     PassesData.generated_at := "5Z";
     PassesData.total_passes := 2;
     PassesData.passes := [lowPass; highPass] |}.

End TestHost.

(** * Facts *)

(** ** Comparisons and rounding *)

Module JsFacts.

Lemma leb_le x y : Js.leb x y = true <-> x <= y.
Proof. apply Qle_bool_iff. Qed.

Lemma leb_gt x y : Js.leb x y = false <-> y < x.
Proof.
  unfold Js.leb. split; intros H.
  - apply Qnot_le_lt. intros Hle. apply Qle_bool_iff in Hle. congruence.
  - destruct (Qle_bool x y) eqn:E; [|reflexivity].
    apply Qle_bool_iff in E. lra.
Qed.

Lemma ltb_lt x y : Js.ltb x y = true <-> x < y.
Proof.
  unfold Js.ltb. rewrite negb_true_iff. apply leb_gt.
Qed.

Lemma ltb_ge x y : Js.ltb x y = false <-> y <= x.
Proof.
  unfold Js.ltb. rewrite negb_false_iff. apply leb_le.
Qed.

Lemma floor_ge (n : Z) (x : Q) : inject_Z n <= x -> (n <= Qfloor x)%Z.
Proof.
  intros H. rewrite <- (Qfloor_Z n). now apply Qfloor_resp_le.
Qed.

Lemma floor_lt (n : Z) (x : Q) : x < inject_Z n -> (Qfloor x < n)%Z.
Proof.
  intros H. rewrite Zlt_Qlt.
  apply Qle_lt_trans with (y := x); [apply Qfloor_le | exact H].
Qed.

Lemma floor_eq (n : Z) (x : Q) :
  inject_Z n <= x -> x < inject_Z (n + 1) -> Qfloor x = n.
Proof.
  intros H1 H2. apply floor_ge in H1. apply floor_lt in H2. lia.
Qed.

Lemma Math_round_mono x y : x <= y -> (Js.Math_round x <= Js.Math_round y)%Z.
Proof.
  intros H. unfold Js.Math_round. apply Qfloor_resp_le. lra.
Qed.

Lemma Math_round_Z (n : Z) : Js.Math_round (inject_Z n) = n.
Proof.
  unfold Js.Math_round. apply floor_eq; rewrite ?inject_Z_plus;
    change (inject_Z 1) with 1; lra.
Qed.

End JsFacts.

Ltac js_cmp :=
  repeat match goal with
  | H : Js.leb _ _ = true |- _ => apply JsFacts.leb_le in H
  | H : Js.leb _ _ = false |- _ => apply JsFacts.leb_gt in H
  | H : Js.ltb _ _ = true |- _ => apply JsFacts.ltb_lt in H
  | H : Js.ltb _ _ = false |- _ => apply JsFacts.ltb_ge in H
  | H : Js.geb _ _ = true |- _ => apply JsFacts.leb_le in H
  | H : Js.geb _ _ = false |- _ => apply JsFacts.leb_gt in H
  | H : Js.gtb _ _ = true |- _ => apply JsFacts.ltb_lt in H
  | H : Js.gtb _ _ = false |- _ => apply JsFacts.ltb_ge in H
  end.

(** ** Runs on concrete inputs *)

Example azimuthToDirection_100 :
  Coordinates.azimuthToDirection 100 = Some "E"%string.
Proof. reflexivity. Qed.

Example azimuthToDirection_350 :
  Coordinates.azimuthToDirection 350 = Some "N"%string.
Proof. reflexivity. Qed.

Example azimuthToDirection_neg :
  Coordinates.azimuthToDirection (-60) = None.
Proof. reflexivity. Qed.

Example rating_scenario_4 :
  let v := Solar.calculateVisibilityRating (-20) true 90 in
  rating v = 100%Z /\ category v = Excellent.
Proof. split; reflexivity. Qed.

Example rating_rounded_up :
  let v := Solar.calculateVisibilityRating (-20) true 44.5 in
  rating v = 75%Z /\ category v = Good.
Proof. split; reflexivity. Qed.


(** ** Loops that step a clock *)

Section Loops.
Context {S : Type}.
Variable cond : S -> bool.
Variable body : S -> S.

Lemma while_iter (n : nat) (s : S) :
  (forall i, (i < n)%nat -> cond (Nat.iter i body s) = true) ->
  while n cond body s = Nat.iter n body s.
Proof.
  revert s. induction n as [|n IH]; intros s Hc.
  - reflexivity.
  - cbn [while]. assert (H0 := Hc 0%nat ltac:(lia)). cbn in H0. rewrite H0.
    rewrite IH.
    + symmetry. apply Nat.iter_succ_r.
    + intros i Hi. rewrite <- Nat.iter_succ_r. apply Hc. lia.
Qed.

End Loops.

Lemma rounds_inside (from to step : Z) (i : nat) :
  (0 < step)%Z -> (i < rounds from to step)%nat ->
  (from + Z.of_nat i * step <= to)%Z.
Proof.
  unfold rounds. intros Hs Hi.
  assert (Hq : (Z.of_nat i < (to - from) / step + 1)%Z) by lia.
  assert (Hm := Z.mul_div_le (to - from) step Hs).
  nia.
Qed.

Lemma rounds_outside (from to step : Z) :
  (0 < step)%Z ->
  (to < from + Z.of_nat (rounds from to step) * step)%Z.
Proof.
  unfold rounds. intros Hs.
  assert (Hm := Z.mul_succ_div_gt (to - from) step Hs).
  destruct (Z_lt_le_dec ((to - from) / step + 1) 0) as [Hneg|Hpos].
  - replace (Z.to_nat ((to - from) / step + 1)) with 0%nat by lia. nia.
  - rewrite Z2Nat.id by lia. nia.
Qed.

(** A loop [while (clock <= to) { ...; clock += step }] started at [from]
    runs [rounds from to step] rounds and then fails its condition. *)
Lemma while_rounds {S : Type} (clock : S -> Z) (body : S -> S) (step to : Z) (s : S) :
  (0 < step)%Z ->
  (forall s', clock (body s') = (clock s' + step)%Z) ->
  let n := rounds (clock s) to step in
  let s' := while n (fun s => (clock s <=? to)%Z) body s in
  s' = Nat.iter n body s /\ (clock s' <=? to)%Z = false.
Proof.
  intros Hs Hbody n s'.
  assert (Hclock : forall i, clock (Nat.iter i body s) = (clock s + Z.of_nat i * step)%Z).
  { induction i as [|i IH].
    - simpl. lia.
    - rewrite Nat.iter_succ, Hbody, IH. lia. }
  assert (Heq : s' = Nat.iter n body s).
  { apply while_iter. intros i Hi. rewrite Hclock.
    apply Z.leb_le. now apply rounds_inside. }
  split; [exact Heq|].
  rewrite Heq, Hclock. apply Z.leb_gt. now apply rounds_outside.
Qed.

Lemma hd_error_In {A : Type} (l : list A) (x : A) :
  hd_error l = Some x -> In x l.
Proof.
  destruct l as [|y l]; [discriminate|]. intros [= ->]. now left.
Qed.

(** ** The loop of refinePass *)

Section RefineLoop.
Context `{JsMath} `{JsDate} `{SatelliteJs}.
Variable this : PassCalculator.
Variable propagator : SatellitePropagator.

Let lat := Observer.latitude (observer this).
Let lon := Observer.longitude (observer this).
Let minElevation := Parameters.min_elevation_deg (parameters this).
Local Abbreviation sampleAt := (Window.sampleAt this propagator).
Local Abbreviation qualifyingUpTo := (Window.qualifyingUpTo this propagator).
Local Abbreviation refine_inv := (Window.refine_inv this propagator).

Lemma fineStep_pos : (0 < Calculator.fineStep)%Z.
Proof. reflexivity. Qed.

Lemma sampleAt_In (t0 t : Z) (p : SatellitePosition) :
  In (t, p) (sampleAt t0) ->
  t = t0 /\ Propagator.propagate propagator t0 lat lon = Some p /\
  minElevation <= elevation p.
Proof.
  unfold Window.sampleAt. fold lat lon minElevation.
  destruct (Propagator.propagate propagator t0 lat lon) as [q|]; [|intros []].
  destruct (Js.geb (elevation q) minElevation) eqn:E; [|intros []].
  intros [[= <- <-]|[]]. js_cmp. auto.
Qed.

Lemma qualifyingUpTo_S (searchStart : Z) (k : nat) :
  qualifyingUpTo searchStart (S k) =
  qualifyingUpTo searchStart k ++
  sampleAt (searchStart + Z.of_nat k * Calculator.fineStep)%Z.
Proof.
  unfold Window.qualifyingUpTo, Window.instantsUpTo.
  rewrite seq_S, map_app, flat_map_app. cbn [map flat_map Nat.add].
  now rewrite app_nil_r.
Qed.

Lemma qualifyingUpTo_In (searchStart : Z) (k : nat) (t : Z) (p : SatellitePosition) :
  In (t, p) (qualifyingUpTo searchStart k) ->
  exists i, (i < k)%nat /\ t = (searchStart + Z.of_nat i * Calculator.fineStep)%Z /\
    Propagator.propagate propagator t lat lon = Some p /\
    minElevation <= elevation p.
Proof.
  induction k as [|k IH].
  - intros [].
  - rewrite qualifyingUpTo_S, in_app_iff. intros [Hin|Hin].
    + destruct (IH Hin) as (i & Hi & Ht & Hp). exists i. split; [lia|auto].
    + apply sampleAt_In in Hin. destruct Hin as (-> & Hp & He).
      exists k. split; [lia|auto].
Qed.

(** The scan visits the instants in increasing order: the first qualifying
    sample is the earliest and the last one the latest. *)
Lemma qualifyingUpTo_first (searchStart : Z) (k : nat) (t0 t : Z) (p0 p : SatellitePosition) :
  hd_error (qualifyingUpTo searchStart k) = Some (t0, p0) ->
  In (t, p) (qualifyingUpTo searchStart k) -> (t0 <= t)%Z.
Proof.
  induction k as [|k IH]; [intros _ []|].
  rewrite qualifyingUpTo_S, in_app_iff.
  destruct (qualifyingUpTo searchStart k) as [|x Q] eqn:EQ.
  - cbn [app]. intros Hhd [[]|Hin].
    apply hd_error_In in Hhd.
    apply sampleAt_In in Hin. apply sampleAt_In in Hhd. lia.
  - cbn [app hd_error]. intros [= ->] [Hin|Hin].
    + apply IH; [reflexivity|exact Hin].
    + apply sampleAt_In in Hin. destruct Hin as (-> & _).
      assert (Hx : In (t0, p0) (qualifyingUpTo searchStart k))
        by (rewrite EQ; now left).
      apply qualifyingUpTo_In in Hx. destruct Hx as (i & Hi & -> & _).
      assert (Hs := fineStep_pos). nia.
Qed.

Lemma qualifyingUpTo_last (searchStart : Z) (k : nat) (t1 t : Z) (p1 p : SatellitePosition) :
  hd_error (rev (qualifyingUpTo searchStart k)) = Some (t1, p1) ->
  In (t, p) (qualifyingUpTo searchStart k) -> (t <= t1)%Z.
Proof.
  induction k as [|k IH]; [intros _ []|].
  rewrite qualifyingUpTo_S, in_app_iff, rev_app_distr.
  destruct (sampleAt _) as [|y l] eqn:ES.
  - cbn [rev app]. intros Hhd [Hin|[]]. now apply IH.
  - assert (Hy : In y (sampleAt (searchStart + Z.of_nat k * Calculator.fineStep)%Z))
      by (rewrite ES; now left).
    assert (Hl : l = []).
    { revert ES. unfold Window.sampleAt.
      destruct (Propagator.propagate _ _ _ _); [|discriminate].
      destruct (Js.geb _ _); [|discriminate]. now intros [= _ <-]. }
    subst l. destruct y as [ty py]. apply sampleAt_In in Hy.
    destruct Hy as (-> & _).
    cbn [rev app hd_error]. intros [= <- <-] [Hin|[[= <- <-]|[]]]; [|lia].
    apply qualifyingUpTo_In in Hin. destruct Hin as (i & Hi & -> & _).
    assert (Hs := fineStep_pos). nia.
Qed.

Lemma refine_inv_init (searchStart : Z) :
  refine_inv searchStart 0 (Calculator.refineInit searchStart).
Proof.
  constructor; cbn; try reflexivity.
  - lia.
  - intros _. repeat split. intros t p [].
  - discriminate.
Qed.

Lemma maxElevation_nonneg (searchStart : Z) (k : nat) (s : Refine.state) :
  refine_inv searchStart k s -> 0 <= Refine.maxElevation s.
Proof.
  intros [_ _ _ _ Hnone Hsome].
  destruct (Refine.maxElevationPosition s) as [p|].
  - destruct (Hsome p eq_refl) as (t & _ & _ & -> & Hpos & _). lra.
  - destruct (Hnone eq_refl) as (_ & -> & _). lra.
Qed.

Lemma refine_inv_step (searchStart : Z) (k : nat) (s : Refine.state) :
  refine_inv searchStart k s ->
  refine_inv searchStart (S k) (Calculator.refineBody this propagator s).
Proof.
  intros I. assert (Hnn := maxElevation_nonneg _ _ _ I).
  destruct I as [Hclock Hpos Hstart Hend Hnone Hsome].
  unfold Calculator.refineBody. fold lat lon minElevation.
  assert (HQ := qualifyingUpTo_S searchStart k).
  unfold Window.sampleAt in HQ. fold lat lon minElevation in HQ.
  rewrite <- Hclock in HQ.
  destruct (Propagator.propagate propagator (Refine.currentTime s) lat lon)
    as [position|] eqn:EP.
  2:{ rewrite app_nil_r in HQ.
      constructor; cbn [Refine.currentTime Refine.maxElevation Refine.maxElevationTime
        Refine.maxElevationPosition Refine.passStartTime Refine.passEndTime
        Refine.positions]; rewrite ?HQ; auto. lia. }
  destruct (Js.geb (elevation position) minElevation) eqn:EG.
  2:{ rewrite app_nil_r in HQ.
      constructor; cbn [Refine.currentTime Refine.maxElevation Refine.maxElevationTime
        Refine.maxElevationPosition Refine.passStartTime Refine.passEndTime
        Refine.positions]; rewrite ?HQ; auto. lia. }
  assert (Hhd : option_map fst
            (hd_error (qualifyingUpTo searchStart k ++ [(Refine.currentTime s, position)])) =
          match Refine.passStartTime s with
          | None => Some (Refine.currentTime s)
          | Some t => Some t
          end).
  { rewrite Hstart. now destruct (qualifyingUpTo searchStart k). }
  destruct (Js.gtb (elevation position) (Refine.maxElevation s)) eqn:EM;
    js_cmp;
    constructor; cbn [Refine.currentTime Refine.maxElevation Refine.maxElevationTime
        Refine.maxElevationPosition Refine.passStartTime Refine.passEndTime
        Refine.positions]; rewrite ?HQ.
  - lia.
  - rewrite map_app, Hpos. reflexivity.
  - now rewrite Hhd.
  - now rewrite rev_app_distr.
  - discriminate.
  - intros p [= <-]. exists (Refine.currentTime s).
    split; [apply in_app_iff; right; now left|].
    repeat split; [lra|].
    intros t' p' Hin. apply in_app_iff in Hin. destruct Hin as [Hin|[[= <- <-]|[]]]; [|lra].
    destruct (Refine.maxElevationPosition s) as [q|] eqn:EQ.
    + destruct (Hsome q eq_refl) as (tq & _ & _ & Hq & _ & Hle).
      specialize (Hle _ _ Hin). rewrite Hq in EM. lra.
    + destruct (Hnone eq_refl) as (_ & _ & Hle). specialize (Hle _ _ Hin). lra.
  - lia.
  - rewrite map_app, Hpos. reflexivity.
  - now rewrite Hhd.
  - now rewrite rev_app_distr.
  - intros E. destruct (Hnone E) as (Ht & Hm & Hle). repeat split; auto.
    intros t p Hin. apply in_app_iff in Hin. destruct Hin as [Hin|[[= <- <-]|[]]].
    + eauto.
    + rewrite Hm in EM. exact EM.
  - intros p E. destruct (Hsome p E) as (t & Hin & Ht & Hm & Hp & Hle).
    exists t. split; [apply in_app_iff; now left|].
    repeat split; auto.
    intros t' p' Hin'. apply in_app_iff in Hin'.
    destruct Hin' as [Hin'|[[= <- <-]|[]]]; [eauto|].
    rewrite Hm in EM. exact EM.
Qed.

Lemma refine_inv_iter (searchStart : Z) (k : nat) :
  refine_inv searchStart k
    (Nat.iter k (Calculator.refineBody this propagator) (Calculator.refineInit searchStart)).
Proof.
  induction k as [|k IH].
  - apply refine_inv_init.
  - rewrite Nat.iter_succ. now apply refine_inv_step.
Qed.

Lemma refineBody_clock (s : Refine.state) :
  Refine.currentTime (Calculator.refineBody this propagator s) =
  (Refine.currentTime s + Calculator.fineStep)%Z.
Proof. reflexivity. Qed.

(** The loop ends by its condition, after visiting every fine instant of
    the window. *)
Lemma refineLoop_inv (approxStart approxEnd : Z) :
  let searchStart := (approxStart - 2 * 60 * 1000)%Z in
  let searchEnd := (approxEnd + 2 * 60 * 1000)%Z in
  let s := Calculator.refineLoop this propagator approxStart approxEnd in
  refine_inv searchStart (rounds searchStart searchEnd Calculator.fineStep) s /\
  (searchEnd < Refine.currentTime s)%Z.
Proof.
  intros searchStart searchEnd s.
  destruct (while_rounds Refine.currentTime (Calculator.refineBody this propagator)
              Calculator.fineStep searchEnd (Calculator.refineInit searchStart)
              fineStep_pos refineBody_clock) as [Heq Hexit].
  fold searchStart searchEnd in Heq, Hexit.
  change (Refine.currentTime (Calculator.refineInit searchStart)) with searchStart
    in Heq, Hexit.
  split.
  - subst s. unfold Calculator.refineLoop. fold searchStart searchEnd.
    rewrite Heq. apply refine_inv_iter.
  - apply Z.leb_gt. exact Hexit.
Qed.

End RefineLoop.

(** ** The coarse scan *)

Lemma coarseLoop_exits `{JsMath} `{JsDate} `{SatelliteJs}
    (this : PassCalculator) (propagator : SatellitePropagator) (startTime endTime : Z) :
  let s :=
    while (rounds startTime endTime Calculator.coarseStep)
      (fun s => (Coarse.currentTime s <=? endTime)%Z)
      (Calculator.coarseBody this propagator)
      (Calculator.coarseInit startTime) in
  (endTime < Coarse.currentTime s)%Z.
Proof.
  intros s.
  destruct (while_rounds Coarse.currentTime (Calculator.coarseBody this propagator)
              Calculator.coarseStep endTime (Calculator.coarseInit startTime))
    as [_ Hexit].
  - reflexivity.
  - intros s'. reflexivity.
  - apply Z.leb_gt. exact Hexit.
Qed.

(** ** What refinePass returns *)

Section RefinePass.
Context `{JsMath} `{JsDate} `{SatelliteJs}.
Variable this : PassCalculator.
Variable propagator : SatellitePropagator.

Let lat := Observer.latitude (observer this).
Let lon := Observer.longitude (observer this).

(** The movement sample of a pass, as [refinePass] picks it. *)
Lemma refinePass_Some (approxStart approxEnd : Z) (pass : SatellitePass.t) :
  Calculator.refinePass this propagator approxStart approxEnd = Some pass ->
  let Q := Window.qualifyingSamples this propagator approxStart approxEnd in
  let positions := map snd Q in
  exists ts ps rest te pe tp pp,
    Q = (ts, ps) :: rest /\
    hd_error (rev Q) = Some (te, pe) /\
    In (tp, pp) Q /\
    (2 <= List.length Q)%nat /\
    0 < elevation pp /\
    (forall t p, In (t, p) Q -> elevation p <= elevation pp) /\
    distance pp <= Parameters.max_distance_km (parameters this) /\
    pass =
      let visibility := Propagator.calculateVisibility propagator pp lat lon in
      let startAzimuth := Js.Math_round (azimuth ps) in
      let movement :=
        if (3 <=? List.length positions)%nat then
          let movementAzimuth :=
            Js.Math_round (azimuth (nth (List.length positions / 2) positions ps)) in
          (Some movementAzimuth,
           Coordinates.azimuthToDirection (inject_Z movementAzimuth))
        else if (2 <=? List.length positions)%nat then
          let movementAzimuth :=
            Js.Math_round (azimuth (nth (List.length positions - 1) positions ps)) in
          (Some movementAzimuth,
           Coordinates.azimuthToDirection (inject_Z movementAzimuth))
        else (None, None) in
      {| SatellitePass.satellite := Propagator.getName propagator;
         SatellitePass.start_time_utc := toISOString ts;
         SatellitePass.start_time_local := Calculator.formatLocal ts;
         SatellitePass.max_elevation := Js.Math_round (elevation pp);
         SatellitePass.max_elevation_time_utc := toISOString tp;
         SatellitePass.max_elevation_time_local := Calculator.formatLocal tp;
         SatellitePass.end_time_utc := toISOString te;
         SatellitePass.end_time_local := Calculator.formatLocal te;
         SatellitePass.duration_seconds := Js.Math_round (inject_Z (te - ts) / 1000);
         SatellitePass.max_distance_km := Js.Math_round (distance pp);
         SatellitePass.positions := [];
         SatellitePass.visibility_rating := rating visibility;
         SatellitePass.visibility_category := Category_string (category visibility);
         SatellitePass.start_azimuth := startAzimuth;
         SatellitePass.start_direction :=
           Coordinates.azimuthToDirection (inject_Z startAzimuth);
         SatellitePass.movement_azimuth := fst movement;
         SatellitePass.movement_direction := snd movement |}.
Proof.
  intros Hr. cbv zeta.
  destruct (refineLoop_inv this propagator approxStart approxEnd) as [I _].
  cbv zeta in I.
  unfold Calculator.refinePass in Hr.
  set (s := Calculator.refineLoop this propagator approxStart approxEnd) in *.
  destruct I as [_ Hpos Hstart Hend _ Hsome].
  change (Window.qualifyingSamples this propagator approxStart approxEnd)
    with (Window.qualifyingUpTo this propagator (approxStart - 2 * 60 * 1000)
            (rounds (approxStart - 2 * 60 * 1000) (approxEnd + 2 * 60 * 1000)
               Calculator.fineStep)).
  remember (Window.qualifyingUpTo this propagator _ _) as Q eqn:EQ.
  clear EQ. rewrite Hpos in Hr. fold lat lon in Hr.
  destruct (Refine.passStartTime s) as [ts|]; [|discriminate].
  destruct (Refine.passEndTime s) as [te|]; [|discriminate].
  destruct (Refine.maxElevationTime s) as [tp|]; [|discriminate].
  destruct (Refine.maxElevationPosition s) as [pp|]; [|discriminate].
  destruct (Hsome pp eq_refl) as (tp' & Hin & [= <-] & Hmax & Hpp & Hle).
  rewrite Hmax in Hr.
  destruct (List.length (map snd Q) <? 2)%nat eqn:EL; [discriminate|].
  apply Nat.ltb_ge in EL. rewrite length_map in EL.
  destruct (Js.gtb (distance pp) _) eqn:ED; [discriminate|]. js_cmp.
  destruct Q as [|[ts' ps] rest]; [discriminate|].
  cbn [hd_error option_map fst] in Hstart. injection Hstart as <-.
  destruct (hd_error (rev ((ts, ps) :: rest))) as [[te' pe]|] eqn:ER; [|discriminate].
  cbn [option_map fst] in Hend. injection Hend as <-.
  exists ts, ps, rest, te, pe, tp, pp.
  repeat (split; [solve [auto]|]).
  cbn [map snd] in Hr |- *.
  destruct (3 <=? _)%nat; [|destruct (2 <=? _)%nat];
    injection Hr as <-; reflexivity.
Qed.

(** A window the scan leaves with fewer than two qualifying samples, or
    with none above the horizon, gives no pass. *)
Lemma refinePass_None_short (approxStart approxEnd : Z) :
  (List.length (Window.qualifyingSamples this propagator approxStart approxEnd) < 2)%nat ->
  Calculator.refinePass this propagator approxStart approxEnd = None.
Proof.
  intros Hlen.
  destruct (Calculator.refinePass this propagator approxStart approxEnd) as [pass|] eqn:E;
    [|reflexivity].
  apply refinePass_Some in E. cbv zeta in E.
  destruct E as (ts & ps & rest & te & pe & tp & pp & _ & _ & _ & H2 & _). lia.
Qed.

End RefinePass.

(** ** Compass labels *)

Lemma directions_get (index : Z) :
  (0 <= index < 8)%Z ->
  exists label, Js.Array_get Coordinates.directions index = Some label /\
    nth_error Coordinates.directions (Z.to_nat index) = Some label.
Proof.
  intros Hi.
  assert (Hc : (index = 0 \/ index = 1 \/ index = 2 \/ index = 3 \/
                index = 4 \/ index = 5 \/ index = 6 \/ index = 7)%Z) by lia.
  repeat (destruct Hc as [->|Hc]; [eexists; split; reflexivity|]).
  subst index. eexists; split; reflexivity.
Qed.

Lemma sector_index (azimuth : Q) :
  0 <= azimuth ->
  let k := Js.Math_floor ((azimuth + 22.5) / 45) in
  (0 <= k)%Z /\
  inject_Z (45 * k) - 22.5 <= azimuth /\ azimuth < inject_Z (45 * k) + 22.5.
Proof.
  intros Ha k. unfold Js.Math_floor in k.
  assert (Hlo := Qfloor_le ((azimuth + 22.5) / 45)).
  assert (Hhi := Qlt_floor ((azimuth + 22.5) / 45)).
  fold k in Hlo, Hhi.
  rewrite inject_Z_plus in Hhi. change (inject_Z 1) with 1 in Hhi.
  rewrite inject_Z_mult. change (inject_Z 45) with 45.
  unfold Qdiv in Hlo, Hhi. change (/ 45) with (1 # 45) in Hlo, Hhi.
  split; [|split; lra].
  apply JsFacts.floor_ge. change (inject_Z 0) with 0.
  unfold Qdiv. change (/ 45) with (1 # 45). lra.
Qed.

Lemma azimuthToDirection_defined (azimuth : Q) :
  0 <= azimuth ->
  exists label, Coordinates.azimuthToDirection azimuth = Some label /\
    In label Coordinates.directions.
Proof.
  intros Ha. destruct (sector_index azimuth Ha) as (Hk & _).
  unfold Coordinates.azimuthToDirection.
  set (k := Js.Math_floor ((azimuth + 22.5) / 45)) in *.
  destruct (directions_get (Z.rem k 8)) as (label & Hget & Hnth).
  { apply Z.rem_bound_pos; lia. }
  exists label. split; [exact Hget|]. eapply nth_error_In; eassumption.
Qed.

(** ** Azimuths *)

Lemma rem_nonneg (x y : Q) : 0 <= x -> 0 < y -> 0 <= Js.rem x y /\ Js.rem x y < y.
Proof.
  intros Hx Hy. unfold Js.rem, Js.trunc.
  assert (Hq : y * (x / y) == x) by (apply Qmult_div_r; lra).
  assert (Hq0 : 0 <= x / y).
  { apply Qle_shift_div_l; [exact Hy|lra]. }
  destruct (Js.ltb (x / y) 0) eqn:E; js_cmp; [lra|].
  assert (Hlo := Qfloor_le (x / y)).
  assert (Hhi := Qlt_floor (x / y)).
  rewrite inject_Z_plus in Hhi. change (inject_Z 1) with 1 in Hhi.
  split; nra.
Qed.

Section Azimuth.
Context `{JsMath} `{JsDate} `{SatelliteJs}.

Lemma calculateAzimuth_range (satLat satLon obsLat obsLon : Q) :
  atan2_lower_bound ->
  0 <= Coordinates.calculateAzimuth satLat satLon obsLat obsLon /\
  Coordinates.calculateAzimuth satLat satLon obsLat obsLon < 360.
Proof.
  intros Hb. unfold Coordinates.calculateAzimuth. cbv zeta.
  apply rem_nonneg; [|lra].
  match goal with |- 0 <= Coordinates.radToDeg (Math_atan2 ?y ?x) + 360 =>
    specialize (Hb y x) end.
  lra.
Qed.

Lemma propagate_azimuth (propagator : SatellitePropagator) (date : Z)
    (observerLat observerLon : Q) (pos : SatellitePosition) :
  atan2_lower_bound ->
  Propagator.propagate propagator date observerLat observerLon = Some pos ->
  0 <= azimuth pos /\ azimuth pos < 360.
Proof.
  intros Hb. unfold Propagator.propagate, Propagator.propagate_try, bind.
  destruct (satrec propagator) as [rec|]; [|discriminate].
  destruct (sat_propagate rec date) as [[pv|]|]; try discriminate.
  destruct (position pv) as [positionEci|]; [|discriminate].
  destruct (gstime date) as [g|]; [|discriminate].
  destruct (eciToGeodetic positionEci g) as [gd|]; [|discriminate].
  destruct (degreesLat _) as [satLat|]; [|discriminate].
  destruct (degreesLong _) as [satLon|]; [|discriminate].
  intros [= <-]. cbn [azimuth]. now apply calculateAzimuth_range.
Qed.

Lemma propagate_time (propagator : SatellitePropagator) (date : Z)
    (observerLat observerLon : Q) (pos : SatellitePosition) :
  Propagator.propagate propagator date observerLat observerLon = Some pos ->
  time pos = date.
Proof.
  unfold Propagator.propagate, Propagator.propagate_try, bind.
  destruct (satrec propagator) as [rec|]; [|discriminate].
  destruct (sat_propagate rec date) as [[pv|]|]; try discriminate.
  destruct (position pv) as [positionEci|]; [|discriminate].
  destruct (gstime date) as [g|]; [|discriminate].
  destruct (eciToGeodetic positionEci g) as [gd|]; [|discriminate].
  destruct (degreesLat _) as [satLat|]; [|discriminate].
  destruct (degreesLong _) as [satLon|]; [|discriminate].
  now intros [= <-].
Qed.

End Azimuth.

(** ** Sorting *)

Section Sorting.
Context {A : Type}.
Variable compare : A -> A -> Z.

Let le (a b : A) : Prop := (compare a b <= 0)%Z.

Hypothesis compare_total : forall a b, (0 < compare a b)%Z -> le b a.
Hypothesis compare_trans : forall a b c, le a b -> le b c -> le a c.

Lemma sort_insert_perm (x : A) (l : list A) :
  Permutation (x :: l) (Js.sort_insert compare x l).
Proof.
  induction l as [|y l IH]; cbn [Js.sort_insert].
  - reflexivity.
  - destruct (compare x y <=? 0)%Z; [reflexivity|].
    rewrite perm_swap. now apply perm_skip.
Qed.

Lemma Array_sort_perm (l : list A) : Permutation l (Js.Array_sort compare l).
Proof.
  induction l as [|x l IH]; cbn; [constructor|].
  rewrite <- sort_insert_perm. now apply perm_skip.
Qed.

Lemma sort_insert_sorted (x : A) (l : list A) :
  StronglySorted le l -> StronglySorted le (Js.sort_insert compare x l).
Proof.
  induction 1 as [|y l Hs IH Hy]; cbn [Js.sort_insert].
  - repeat constructor.
  - destruct (compare x y <=? 0)%Z eqn:E.
    + apply Z.leb_le in E. constructor; [now constructor|].
      constructor; [exact E|].
      eapply Forall_impl; [|exact Hy]. intros z Hz. eapply compare_trans; eassumption.
    + apply Z.leb_gt in E. constructor; [exact IH|].
      eapply Permutation_Forall; [apply sort_insert_perm|].
      constructor; [now apply compare_total|exact Hy].
Qed.

Lemma Array_sort_sorted (l : list A) : StronglySorted le (Js.Array_sort compare l).
Proof.
  induction l as [|x l IH]; cbn; [constructor|]. now apply sort_insert_sorted.
Qed.

End Sorting.

Lemma fold_left_push {A : Type} (l acc : list A) :
  fold_left (fun acc x => acc ++ [x]) l acc = acc ++ l.
Proof.
  revert acc. induction l as [|x l IH]; intros acc; cbn.
  - now rewrite app_nil_r.
  - rewrite IH, <- app_assoc. reflexivity.
Qed.

(** * The properties of the specification *)

(** ** Visibility rating *)

(** C4. A satellite that is not illuminated is rated 0 and "Poor", whatever
    the elevations of the sun and of the satellite. *)
Theorem rating_of_unlit_satellite (sunElevation satElevation : Q) :
  Solar.calculateVisibilityRating sunElevation false satElevation =
  {| rating := 0; category := Poor; isIlluminated := false;
     sunElevation := sunElevation |}.
Proof. reflexivity. Qed.

(** C6, as amended. For an illuminated satellite the rating is the darkness
    component plus the elevation component, rounded to the nearest integer,
    and the category is read off the sum before it is rounded.  Sun at -20
    degrees and satellite at 90 degrees give 100 and "Excellent". *)
Theorem rating_of_lit_satellite (sunElevation satElevation : Q) :
  let v := Solar.calculateVisibilityRating sunElevation true satElevation in
  let points :=
    RatingSpec.darkness sunElevation + RatingSpec.elevationPoints satElevation in
  (rating v = Js.Math_round points /\
   category v = RatingSpec.categoryOf points /\
   isIlluminated v = true) /\
  (rating (Solar.calculateVisibilityRating (-20) true 90) = 100%Z /\
   category (Solar.calculateVisibilityRating (-20) true 90) = Excellent).
Proof.
  cbv zeta. split; [|split; reflexivity].
  unfold Solar.calculateVisibilityRating, RatingSpec.darkness,
    RatingSpec.elevationPoints, RatingSpec.categoryOf, Js.geb, Js.leb, Js.ltb,
    Js.Math_min.
  cbn [negb rating category isIlluminated].
  destruct (Qle_bool sunElevation (-18)); [repeat split|].
  destruct (Qle_bool sunElevation (-12)); [repeat split|].
  destruct (Qle_bool sunElevation (-6)); [repeat split|].
  destruct (Qle_bool 0 sunElevation); repeat split.
Qed.

(** ** Compass labels *)

(** C8. On [0, 360) [azimuthToDirection] returns one of the eight labels:
    the label of the compass point 45k degrees whose sector, 22.5 degrees to
    either side, holds the azimuth (k = 8 is north again): N for k = 0 and 8,
    then NE, E, SE, S, SW, W, NW for k = 1 to 7.  0 and 22.4 give "N", 22.6
    gives "NE". *)
Theorem azimuthToDirection_sectors :
  (forall azimuth : Q, 0 <= azimuth -> azimuth < 360 ->
   exists (k : Z) (label : string),
     (0 <= k <= 8)%Z /\
     inject_Z (45 * k) - 22.5 <= azimuth /\ azimuth < inject_Z (45 * k) + 22.5 /\
     nth_error Coordinates.directions (Z.to_nat (k mod 8)) = Some label /\
     compassPoint k = Some label /\
     Coordinates.azimuthToDirection azimuth = Some label) /\
  Coordinates.azimuthToDirection 0 = Some "N"%string /\
  Coordinates.azimuthToDirection 22.4 = Some "N"%string /\
  Coordinates.azimuthToDirection 22.6 = Some "NE"%string.
Proof.
  split; [|repeat split].
  intros azimuth Hlo Hhi.
  destruct (sector_index azimuth Hlo) as (Hk & Hklo & Hkhi).
  unfold Coordinates.azimuthToDirection.
  set (k := Js.Math_floor ((azimuth + 22.5) / 45)) in *.
  assert (Hk8 : (k <= 8)%Z).
  { assert (Hq : inject_Z (45 * k) < inject_Z (45 * 9)).
    { change (inject_Z (45 * 9)) with 405. lra. }
    rewrite <- Zlt_Qlt in Hq. lia. }
  rewrite Z.rem_mod_nonneg by lia.
  destruct (directions_get (k mod 8)) as (label & Hget & Hnth).
  { apply Z.mod_pos_bound. lia. }
  exists k, label.
  split; [lia|]. split; [exact Hklo|]. split; [exact Hkhi|].
  split; [exact Hnth|]. split; [|exact Hget].
  assert (Hcases : (k = 0 \/ k = 1 \/ k = 2 \/ k = 3 \/ k = 4 \/ k = 5 \/
                    k = 6 \/ k = 7 \/ k = 8)%Z) by lia.
  clearbody k. clear - Hnth Hcases.
  repeat (destruct Hcases as [-> | Hcases]; [exact Hnth|]).
  subst k. exact Hnth.
Qed.

(** ** The propagator *)

Section PropagatorFacts.
Context `{JsMath} `{JsDate} `{SatelliteJs}.

Lemma new_parseFails (tleData : TLEData) :
  parseFails tleData -> satrec (Propagator.new tleData) = None.
Proof.
  unfold parseFails, Propagator.new. cbn [satrec].
  destruct (twoline2satrec (line1 tleData) (line2 tleData)) as [rec|]; [|reflexivity].
  intros Herr. destruct (error rec =? 0)%Z eqn:E; [|reflexivity].
  apply Z.eqb_eq in E. contradiction.
Qed.

Lemma filterCandidateSatellites_app (this : PassCalculator) (l1 l2 : list TLEData) :
  Calculator.filterCandidateSatellites this (l1 ++ l2) =
  Calculator.filterCandidateSatellites this l1 ++
  Calculator.filterCandidateSatellites this l2.
Proof.
  induction l1 as [|sat l1 IH]; [reflexivity|].
  cbn [app]. unfold Calculator.filterCandidateSatellites in *.
  destruct (negb (Propagator.isValid (Propagator.new sat))); [exact IH|].
  destruct (Propagator.couldBeVisible _ _); [|exact IH].
  cbn [app]. now rewrite IH.
Qed.

Lemma filterCandidateSatellites_invalid (this : PassCalculator)
    (tleData : TLEData) (rest : list TLEData) :
  satrec (Propagator.new tleData) = None ->
  Calculator.filterCandidateSatellites this (tleData :: rest) =
  Calculator.filterCandidateSatellites this rest.
Proof.
  intros Hnone. unfold Calculator.filterCandidateSatellites.
  unfold Propagator.isValid at 1. rewrite Hnone. reflexivity.
Qed.

Lemma couldBeVisible_number (propagator : SatellitePropagator) (observerLat : Q)
    (elements : OrbitalElements) :
  Propagator.getOrbitalElements propagator = Some elements ->
  Propagator.couldBeVisible propagator observerLat = isNumber (inclination elements).
Proof.
  unfold Propagator.couldBeVisible. intros Hel.
  assert (Hrec : exists rec, satrec propagator = Some rec).
  { unfold Propagator.getOrbitalElements in Hel.
    destruct (satrec propagator) as [rec|]; [now exists rec|discriminate]. }
  destruct Hrec as [rec ->]. rewrite Hel.
  destruct (inclination elements) as [i|]; [|reflexivity].
  cbn [Js.num_geb Js.num_leb isNumber].
  set (a := Js.Math_abs observerLat).
  destruct (Js.leb a i) eqn:E1, (Js.leb i (180 - a)) eqn:E2; cbn [andb];
    try reflexivity;
    destruct (Js.leb (180 - a) i) eqn:E3; cbn [orb]; try reflexivity;
    destruct (Js.leb i a) eqn:E4; try reflexivity;
    js_cmp; lra.
Qed.

Lemma inclinationReaches_number (i : Js.number) (observerLat : Q) :
  inclinationReaches i observerLat = true -> isNumber i = true.
Proof.
  destruct i; [reflexivity|discriminate].
Qed.

(** C1, as amended.  [couldBeVisible] returns true for a valid record exactly
    when the orbit's inclination is a number: when the inclination is at
    least |observerLatitude| or at least 180 - |observerLatitude|, and also
    when it is below both bounds, where the record is kept as a candidate and
    left to the propagation.  A valid record is turned down only when its
    inclination is NaN. *)
Theorem couldBeVisible_of_valid_record
    (propagator : SatellitePropagator) (observerLat : Q) :
  Propagator.isValid propagator = true ->
  exists elements,
    Propagator.getOrbitalElements propagator = Some elements /\
    Propagator.couldBeVisible propagator observerLat = isNumber (inclination elements) /\
    (inclinationReaches (inclination elements) observerLat = true ->
     Propagator.couldBeVisible propagator observerLat = true).
Proof.
  intros Hvalid.
  assert (Hel : exists elements, Propagator.getOrbitalElements propagator = Some elements).
  { unfold Propagator.isValid in Hvalid. unfold Propagator.getOrbitalElements.
    destruct (satrec propagator); [eexists; reflexivity|discriminate]. }
  destruct Hel as [elements Hel]. exists elements.
  split; [exact Hel|]. split.
  - now apply couldBeVisible_number.
  - intros Hr. rewrite (couldBeVisible_number _ observerLat _ Hel).
    eapply inclinationReaches_number; eassumption.
Qed.

(** C5. A record whose two-line encoding fails to parse gives a propagator
    that is invalid, whose [propagate] has no result at any instant, whose
    [couldBeVisible] is false at any latitude and whose orbital elements are
    absent; in any batch it is dropped from the candidates, so the passes
    found are those of the batch without it.  No call on the way reaches
    satellite.js again, so none can throw. *)
Theorem unparseable_record_is_skipped (tleData : TLEData) :
  parseFails tleData ->
  let propagator := Propagator.new tleData in
  Propagator.isValid propagator = false /\
  (forall date observerLat observerLon,
     Propagator.propagate propagator date observerLat observerLon = None) /\
  (forall observerLat, Propagator.couldBeVisible propagator observerLat = false) /\
  Propagator.getOrbitalElements propagator = None /\
  (forall this startTime endTime,
     Calculator.findPasses this [tleData] startTime endTime = []) /\
  (forall this before after startTime endTime,
     Calculator.findPasses this (before ++ tleData :: after) startTime endTime =
     Calculator.findPasses this (before ++ after) startTime endTime).
Proof.
  intros Hfail propagator.
  assert (Hnone : satrec propagator = None) by now apply new_parseFails.
  repeat split.
  - unfold Propagator.isValid. now rewrite Hnone.
  - intros. unfold Propagator.propagate. now rewrite Hnone.
  - intros. unfold Propagator.couldBeVisible. now rewrite Hnone.
  - unfold Propagator.getOrbitalElements. now rewrite Hnone.
  - intros. unfold Calculator.findPasses.
    now rewrite filterCandidateSatellites_invalid.
  - intros. unfold Calculator.findPasses.
    rewrite !filterCandidateSatellites_app.
    now rewrite filterCandidateSatellites_invalid.
Qed.

End PropagatorFacts.

(** ** Pass records *)

Section PassFacts.
Context `{JsMath} `{JsDate} `{SatelliteJs}.
Variable this : PassCalculator.
Variable propagator : SatellitePropagator.

Let lat := Observer.latitude (observer this).
Let lon := Observer.longitude (observer this).
Let qualifyingSamples := Window.qualifyingSamples this propagator.

Lemma qualifyingSamples_In (approxStart approxEnd t : Z) (p : SatellitePosition) :
  In (t, p) (qualifyingSamples approxStart approxEnd) ->
  Propagator.propagate propagator t lat lon = Some p /\
  Parameters.min_elevation_deg (parameters this) <= elevation p.
Proof.
  intros Hin.
  destruct (qualifyingUpTo_In this propagator _ _ t p Hin) as (i & _ & _ & Hp & He).
  now split.
Qed.

(** C2, as amended. An emitted pass comes from a window with at least two
    qualifying fine samples.  Its peak is one of them: the peak elevation
    reaches the configured minimum and the peak range stays within the
    configured maximum.  The record stores both rounded, so the stored
    elevation is at least the rounded minimum and the stored range at most
    the rounded maximum. *)
Theorem emitted_pass_respects_thresholds (approxStart approxEnd : Z)
    (pass : SatellitePass.t) :
  Calculator.refinePass this propagator approxStart approxEnd = Some pass ->
  (2 <= List.length (qualifyingSamples approxStart approxEnd))%nat /\
  exists tp pp,
    In (tp, pp) (qualifyingSamples approxStart approxEnd) /\
    Parameters.min_elevation_deg (parameters this) <= elevation pp /\
    distance pp <= Parameters.max_distance_km (parameters this) /\
    SatellitePass.max_elevation pass = Js.Math_round (elevation pp) /\
    SatellitePass.max_distance_km pass = Js.Math_round (distance pp) /\
    (Js.Math_round (Parameters.min_elevation_deg (parameters this))
       <= SatellitePass.max_elevation pass)%Z /\
    (SatellitePass.max_distance_km pass
       <= Js.Math_round (Parameters.max_distance_km (parameters this)))%Z.
Proof.
  intros Hr. apply refinePass_Some in Hr. cbv zeta in Hr.
  destruct Hr as (ts & ps & rest & te & pe & tp & pp &
                  HQ & Hlast & Hin & Hlen & Hpos & Hmax & Hdist & ->).
  split; [exact Hlen|]. exists tp, pp.
  destruct (qualifyingSamples_In _ _ _ _ Hin) as [_ Hmin].
  cbn [SatellitePass.max_elevation SatellitePass.max_distance_km].
  repeat split; auto using JsFacts.Math_round_mono.
Qed.

(** C3. An emitted pass starts at the instant of the first qualifying fine
    sample and ends at the instant of the last; its peak is a qualifying
    sample of maximum elevation, at an instant between the two; the
    duration is the rounded number of seconds from start to end. *)
Theorem emitted_pass_times (approxStart approxEnd : Z) (pass : SatellitePass.t) :
  Calculator.refinePass this propagator approxStart approxEnd = Some pass ->
  exists ts ps rest te pe tp pp,
    qualifyingSamples approxStart approxEnd = (ts, ps) :: rest /\
    hd_error (rev (qualifyingSamples approxStart approxEnd)) = Some (te, pe) /\
    In (tp, pp) (qualifyingSamples approxStart approxEnd) /\
    Forall (fun sample => elevation (snd sample) <= elevation pp)
      (qualifyingSamples approxStart approxEnd) /\
    SatellitePass.start_time_utc pass = toISOString ts /\
    SatellitePass.max_elevation_time_utc pass = toISOString tp /\
    SatellitePass.end_time_utc pass = toISOString te /\
    SatellitePass.start_time_local pass = Calculator.formatLocal ts /\
    SatellitePass.max_elevation_time_local pass = Calculator.formatLocal tp /\
    SatellitePass.end_time_local pass = Calculator.formatLocal te /\
    (ts <= tp <= te)%Z /\
    SatellitePass.duration_seconds pass = Js.Math_round (inject_Z (te - ts) / 1000).
Proof.
  intros Hr. apply refinePass_Some in Hr. cbv zeta in Hr.
  destruct Hr as (ts & ps & rest & te & pe & tp & pp &
                  HQ & Hlast & Hin & Hlen & Hpos & Hmax & Hdist & ->).
  exists ts, ps, rest, te, pe, tp, pp.
  split; [exact HQ|]. split; [exact Hlast|]. split; [exact Hin|].
  split.
  { apply Forall_forall. intros [t p] Ht. cbn [snd]. eauto. }
  cbn [SatellitePass.start_time_utc SatellitePass.max_elevation_time_utc
       SatellitePass.end_time_utc SatellitePass.start_time_local
       SatellitePass.max_elevation_time_local SatellitePass.end_time_local
       SatellitePass.duration_seconds].
  repeat (split; [reflexivity|]). split; [|reflexivity].
  split.
  - assert (Hfirst : hd_error (qualifyingSamples approxStart approxEnd) = Some (ts, ps))
      by (unfold qualifyingSamples; now rewrite HQ).
    exact (qualifyingUpTo_first this propagator _ _ ts tp ps pp Hfirst Hin).
  - exact (qualifyingUpTo_last this propagator _ _ te tp pe pp Hlast Hin).
Qed.

(** C7. A pass is emitted only if some qualifying fine sample has an
    elevation above 0: a window whose qualifying samples all lie at or
    below 0 gives no pass, however many they are. *)
Theorem refinePass_needs_positive_elevation (approxStart approxEnd : Z) :
  (forall pass,
     Calculator.refinePass this propagator approxStart approxEnd = Some pass ->
     Exists (fun sample => 0 < elevation (snd sample))
       (qualifyingSamples approxStart approxEnd)) /\
  (Forall (fun sample => elevation (snd sample) <= 0)
     (qualifyingSamples approxStart approxEnd) ->
   Calculator.refinePass this propagator approxStart approxEnd = None).
Proof.
  assert (Hpos : forall pass,
    Calculator.refinePass this propagator approxStart approxEnd = Some pass ->
    exists tp pp, In (tp, pp) (qualifyingSamples approxStart approxEnd) /\
      0 < elevation pp).
  { intros pass Hr. apply refinePass_Some in Hr. cbv zeta in Hr.
    destruct Hr as (ts & ps & rest & te & pe & tp & pp &
                    _ & _ & Hin & _ & Hpp & _).
    eauto. }
  split.
  - intros pass Hr. destruct (Hpos pass Hr) as (tp & pp & Hin & Hpp).
    apply Exists_exists. exists (tp, pp). auto.
  - intros Hall.
    destruct (Calculator.refinePass this propagator approxStart approxEnd)
      as [pass|] eqn:Hr; [|reflexivity].
    destruct (Hpos pass eq_refl) as (tp & pp & Hin & Hpp).
    rewrite Forall_forall in Hall. specialize (Hall _ Hin). cbn [snd] in Hall. lra.
Qed.

(** C9. In an emitted pass the movement azimuth is the rounded azimuth of
    the middle qualifying sample when there are three or more, of the last
    one when there are two, and the movement direction is what
    [azimuthToDirection] makes of it; the azimuth is always present, and so
    is the direction, a compass label, as [Math.atan2] keeps its range. *)
Theorem emitted_pass_movement (approxStart approxEnd : Z) (pass : SatellitePass.t) :
  Calculator.refinePass this propagator approxStart approxEnd = Some pass ->
  let positions := map snd (qualifyingSamples approxStart approxEnd) in
  let index :=
    if (3 <=? List.length positions)%nat then (List.length positions / 2)%nat
    else (List.length positions - 1)%nat in
  (2 <= List.length positions)%nat /\
  exists sample,
    nth_error positions index = Some sample /\
    SatellitePass.movement_azimuth pass = Some (Js.Math_round (azimuth sample)) /\
    SatellitePass.movement_direction pass =
      Coordinates.azimuthToDirection (inject_Z (Js.Math_round (azimuth sample))) /\
    (atan2_lower_bound ->
     exists label,
       SatellitePass.movement_direction pass = Some label /\
       In label Coordinates.directions).
Proof.
  intros Hr positions index. apply refinePass_Some in Hr. cbv zeta in Hr.
  destruct Hr as (ts & ps & rest & te & pe & tp & pp &
                  HQ & Hlast & Hin & Hlen & Hpos & Hmax & Hdist & Hpass).
  fold qualifyingSamples in HQ, Hlen |- *. fold positions.
  assert (Hlen' : (2 <= List.length positions)%nat)
    by (unfold positions; now rewrite length_map).
  split; [exact Hlen'|].
  assert (Hidx : (index < List.length positions)%nat).
  { unfold index. destruct (3 <=? List.length positions)%nat.
    - apply Nat.div_lt; lia.
    - lia. }
  assert (Hnth : nth_error positions index = Some (nth index positions ps))
    by now apply nth_error_nth'.
  set (sample := nth index positions ps) in *.
  assert (Hfields :
    SatellitePass.movement_azimuth pass = Some (Js.Math_round (azimuth sample)) /\
    SatellitePass.movement_direction pass =
      Coordinates.azimuthToDirection (inject_Z (Js.Math_round (azimuth sample)))).
  { subst pass. cbn [SatellitePass.movement_azimuth SatellitePass.movement_direction].
    subst sample index. unfold positions, qualifyingSamples in Hlen' |- *.
    destruct (3 <=? _)%nat eqn:E3.
    - cbn [fst snd]. auto.
    - apply Nat.leb_le in Hlen'. rewrite Hlen'. cbn [fst snd]. auto. }
  destruct Hfields as [Hazimuth Hdirection].
  exists sample. repeat (split; [assumption|]).
  intros Hatan. rewrite Hdirection.
  apply azimuthToDirection_defined.
  assert (Haz : 0 <= azimuth sample).
  { apply nth_error_In in Hnth. unfold positions in Hnth.
    apply in_map_iff in Hnth. destruct Hnth as ([t p] & Hp & Hq).
    cbn [snd] in Hp. subst p.
    apply qualifyingSamples_In in Hq. destruct Hq as [Hq _].
    now apply (propagate_azimuth _ _ _ _ _ Hatan Hq). }
  change 0 with (inject_Z 0). rewrite <- Zle_Qle.
  apply JsFacts.floor_ge. change (inject_Z 0) with 0. lra.
Qed.

End PassFacts.

(** ** The dataset *)

Lemma StronglySorted_impl {A : Type} (R R' : A -> A -> Prop) (l : list A) :
  (forall a b, R a b -> R' a b) -> StronglySorted R l -> StronglySorted R' l.
Proof.
  intros Himpl. induction 1 as [|x l Hs IH Hx]; constructor.
  - exact IH.
  - eapply Forall_impl; [|exact Hx]. auto.
Qed.

Section DatasetFacts.
Context `{JsMath} `{JsDate} `{SatelliteJs}.

(** The start of a pass as the comparator of [calculatePasses] reads it. *)
Let startOf (pass : SatellitePass.t) : Z :=
  Date_parse (SatellitePass.start_time_utc pass).

(** C10. The dataset [calculatePasses] returns lists the passes found, in
    ascending order of start time, and counts them in [total_passes]; so
    does every dataset [getPassesData] builds afterwards. *)
Theorem calculatePasses_sorted_and_counted (this this' : OrbitManager)
    (hoursAhead : option Q) (now clock : Z) (data : PassesData.t) :
  Manager.calculatePasses this hoursAhead now clock = Ok (data, this') ->
  StronglySorted (fun a b => (startOf a <= startOf b)%Z) (PassesData.passes data) /\
  PassesData.total_passes data = Z.of_nat (List.length (PassesData.passes data)) /\
  calculatedPasses this' = PassesData.passes data /\
  (forall clock',
     exists data',
       Manager.getPassesData this' clock' = Ok data' /\
       PassesData.passes data' = PassesData.passes data /\
       PassesData.total_passes data' = PassesData.total_passes data) /\
  exists dataset,
    tleDataset this = Some dataset /\
    Permutation
      (Calculator.findPasses
         {| observer := TLEDataset.observer dataset;
            parameters := TLEDataset.parameters dataset |}
         (TLEDataset.satellites dataset) now
         (Js.new_Date
            (inject_Z now
             + match hoursAhead with Some h => h | None => 24 end * 60 * 60 * 1000)))
      (PassesData.passes data).
Proof.
  unfold Manager.calculatePasses, Manager.getPassesData, bind.
  cbn [tleDataset calculatedPasses].
  destruct (tleDataset this) as [dataset|]; [|discriminate].
  rewrite fold_left_push. cbn [app].
  intros [= <- <-].
  cbn [PassesData.passes PassesData.total_passes calculatedPasses].
  split; [|split; [reflexivity|split; [reflexivity|split]]].
  - eapply StronglySorted_impl; [|apply Array_sort_sorted].
    + unfold Manager.byStartTime, startOf. intros a b Hab. lia.
    + unfold Manager.byStartTime. intros a b Hab. lia.
    + unfold Manager.byStartTime. intros a b c Hab Hbc. lia.
  - intros clock'. eexists. repeat split.
  - exists dataset. split; [reflexivity|]. apply Array_sort_perm.
Qed.

End DatasetFacts.

(** ** The instants of the fine scan *)

Lemma fineInstants_spec (approxStart approxEnd t : Z) :
  In t (Window.fineInstants approxStart approxEnd) <->
  exists i : nat,
    t = (approxStart - 2 * 60 * 1000 + Z.of_nat i * Calculator.fineStep)%Z /\
    (t <= approxEnd + 2 * 60 * 1000)%Z.
Proof.
  unfold Window.fineInstants, Window.instantsUpTo. rewrite in_map_iff.
  assert (Hs := fineStep_pos).
  split.
  - intros (i & <- & Hi). apply in_seq in Hi. exists i. split; [reflexivity|].
    apply rounds_inside; [exact Hs|lia].
  - intros (i & -> & Hle). exists i. split; [reflexivity|].
    apply in_seq. split; [lia|]. cbn [Nat.add].
    assert (Hout := rounds_outside (approxStart - 2 * 60 * 1000)
                      (approxEnd + 2 * 60 * 1000) Calculator.fineStep Hs).
    nia.
Qed.

(** * Runs on the small host *)

Module Runs.
Import TestHost.

Lemma refinePass_high :
  Calculator.refinePass (calculator 10 1500) high 600000 600000 = Some highPass.
Proof. vm_compute. reflexivity. Qed.

Lemma refinePass_low :
  Calculator.refinePass (calculator 10.3 1499.7) low 0 0 = Some lowPass.
Proof. vm_compute. reflexivity. Qed.

Lemma calculatePasses_manager :
  Manager.calculatePasses manager None 0 5 =
  Ok (passesData,
      {| tleDataset := tleDataset manager; calculatedPasses := [lowPass; highPass] |}).
Proof. vm_compute. reflexivity. Qed.

Lemma atan2_lower_bound_holds : atan2_lower_bound.
Proof.
  intros y x. unfold Coordinates.radToDeg. cbn [Math_atan2 Math_PI math].
  assert (Hm := Q.le_max_l (-180) (Qmin 180 y)).
  set (m := Qmax (-180) (Qmin 180 y)) in *.
  unfold Qdiv. change (/ 180) with (1 # 180). lra.
Qed.

(** The record ["high"] is valid and its inclination of 10 degrees is below
    both bounds at the observer's latitude of 62.2426 degrees: it is neither
    at least 62.2426 nor at least 117.7574.  Yet [couldBeVisible] accepts it,
    it stays a candidate, and the search reports its pass. *)
Lemma low_inclination_is_not_excluded :
  let observerLat := Observer.latitude jyvaskyla in
  Propagator.isValid high = true /\
  (exists elements,
     Propagator.getOrbitalElements high = Some elements /\
     inclination elements = Js.Finite ((1 # 6) * 60) /\
     inclinationReaches (inclination elements) observerLat = false) /\
  (1 # 6) * 60 < Js.Math_abs observerLat /\
  (1 # 6) * 60 < 180 - Js.Math_abs observerLat /\
  Propagator.couldBeVisible high observerLat = true /\
  Calculator.filterCandidateSatellites (calculator 10 1500) [tle "1" "high"] =
  [tle "1" "high"] /\
  Calculator.findPasses (calculator 10 1500) [tle "1" "high"] 600000 600000 =
  [highPass].
Proof.
  cbv zeta.
  split; [reflexivity|].
  split; [eexists; split; [reflexivity|split; vm_compute; reflexivity]|].
  split; [vm_compute; reflexivity|].
  split; [vm_compute; reflexivity|].
  split; [vm_compute; reflexivity|].
  split; vm_compute; reflexivity.
Qed.

(** The amended rule at the valid record ["high"] and latitude 60. *)
Lemma couldBeVisible_of_valid_record_high :
  Propagator.isValid high = true /\
  exists elements,
    Propagator.getOrbitalElements high = Some elements /\
    Propagator.couldBeVisible high 60 = isNumber (inclination elements) /\
    (inclinationReaches (inclination elements) 60 = true ->
     Propagator.couldBeVisible high 60 = true).
Proof.
  split; [reflexivity|].
  apply (couldBeVisible_of_valid_record high 60). reflexivity.
Defined.

(** The record ["garbled"] parses, its inclination is NaN, and it is turned
    down at every latitude tried. *)
Example couldBeVisible_garbled :
  Propagator.isValid garbled = true /\
  (exists elements,
     Propagator.getOrbitalElements garbled = Some elements /\
     inclination elements = Js.NaN) /\
  Propagator.couldBeVisible garbled 60 = false /\
  Propagator.couldBeVisible garbled 0 = false /\
  Calculator.filterCandidateSatellites (calculator 10 1500)
    [tle "1" "garbled"; tle "1" "high"] = [tle "1" "high"].
Proof.
  split; [reflexivity|].
  split; [eexists; split; reflexivity|].
  repeat split; vm_compute; reflexivity.
Qed.

(** With a minimum elevation of 10.3 degrees and a maximum range of 1499.7 km
    the pass of ["low"], whose two samples are at 10.4 degrees and 1499.6 km,
    is stored with elevation 10 and range 1500. *)
Lemma rounded_peak_misses_thresholds :
  Calculator.refinePass (calculator 10.3 1499.7) low 0 0 = Some lowPass /\
  ~ (Parameters.min_elevation_deg (parameters (calculator 10.3 1499.7))
       <= inject_Z (SatellitePass.max_elevation lowPass)) /\
  ~ (inject_Z (SatellitePass.max_distance_km lowPass)
       <= Parameters.max_distance_km (parameters (calculator 10.3 1499.7))).
Proof.
  split; [vm_compute; reflexivity|].
  split; vm_compute; intros Hle; apply Hle; reflexivity.
Qed.

Lemma emitted_pass_respects_thresholds_low :
  let samples := Window.qualifyingSamples (calculator 10.3 1499.7) low 0 0 in
  Calculator.refinePass (calculator 10.3 1499.7) low 0 0 = Some lowPass /\
  (2 <= List.length samples)%nat /\
  exists tp pp,
    In (tp, pp) samples /\
    10.3 <= elevation pp /\
    distance pp <= 1499.7 /\
    SatellitePass.max_elevation lowPass = Js.Math_round (elevation pp) /\
    SatellitePass.max_distance_km lowPass = Js.Math_round (distance pp) /\
    (Js.Math_round 10.3 <= SatellitePass.max_elevation lowPass)%Z /\
    (SatellitePass.max_distance_km lowPass <= Js.Math_round 1499.7)%Z.
Proof.
  cbv zeta. split; [vm_compute; reflexivity|].
  apply (emitted_pass_respects_thresholds (calculator 10.3 1499.7) low 0 0 lowPass).
  vm_compute. reflexivity.
Defined.

Lemma emitted_pass_times_high :
  let samples := Window.qualifyingSamples (calculator 10 1500) high 600000 600000 in
  Calculator.refinePass (calculator 10 1500) high 600000 600000 = Some highPass /\
  exists ts ps rest te pe tp pp,
    samples = (ts, ps) :: rest /\
    hd_error (rev samples) = Some (te, pe) /\
    In (tp, pp) samples /\
    Forall (fun sample => elevation (snd sample) <= elevation pp) samples /\
    SatellitePass.start_time_utc highPass = toISOString ts /\
    SatellitePass.max_elevation_time_utc highPass = toISOString tp /\
    SatellitePass.end_time_utc highPass = toISOString te /\
    SatellitePass.start_time_local highPass = Calculator.formatLocal ts /\
    SatellitePass.max_elevation_time_local highPass = Calculator.formatLocal tp /\
    SatellitePass.end_time_local highPass = Calculator.formatLocal te /\
    (ts <= tp <= te)%Z /\
    SatellitePass.duration_seconds highPass = Js.Math_round (inject_Z (te - ts) / 1000).
Proof.
  cbv zeta. split; [vm_compute; reflexivity|].
  apply (emitted_pass_times (calculator 10 1500) high 600000 600000 highPass).
  vm_compute. reflexivity.
Defined.

Lemma unparseable_record_is_skipped_flagged :
  parseFails flagged /\
  Propagator.isValid (Propagator.new flagged) = false /\
  Calculator.findPasses (calculator 10 1500) [tle "1" "high"; flagged; tle "1" "low"]
    0 86400000 =
  Calculator.findPasses (calculator 10 1500) [tle "1" "high"; tle "1" "low"]
    0 86400000.
Proof.
  assert (Hfail : parseFails flagged) by (vm_compute; discriminate).
  split; [exact Hfail|].
  destruct (unparseable_record_is_skipped flagged Hfail)
    as (Hvalid & _ & _ & _ & _ & Hbatch).
  split; [exact Hvalid|].
  exact (Hbatch (calculator 10 1500) [tle "1" "high"] [tle "1" "low"] 0%Z 86400000%Z).
Defined.

(** ["high"] gives a pass and has a sample above the horizon; the 25
    samples of ["under"] all qualify for a minimum of -20 degrees, none is
    above 0, and there is no pass. *)
Lemma refinePass_needs_positive_elevation_under :
  Exists (fun sample => 0 < elevation (snd sample))
    (Window.qualifyingSamples (calculator 10 1500) high 600000 600000) /\
  List.length (Window.qualifyingSamples (calculator (-20) 1500) under 0 0) = 25%nat /\
  Calculator.refinePass (calculator (-20) 1500) under 0 0 = None.
Proof.
  split.
  - apply (proj1 (refinePass_needs_positive_elevation
                    (calculator 10 1500) high 600000 600000) highPass).
    vm_compute. reflexivity.
  - split; [vm_compute; reflexivity|].
    apply (proj2 (refinePass_needs_positive_elevation
                    (calculator (-20) 1500) under 0 0)).
    vm_compute.
    repeat (apply Forall_cons; [discriminate|]). apply Forall_nil.
Defined.

Lemma azimuthToDirection_sectors_100 :
  exists (k : Z) (label : string),
    (0 <= k <= 8)%Z /\
    inject_Z (45 * k) - 22.5 <= 100 /\ 100 < inject_Z (45 * k) + 22.5 /\
    nth_error Coordinates.directions (Z.to_nat (k mod 8)) = Some label /\
    compassPoint k = Some label /\
    Coordinates.azimuthToDirection 100 = Some label.
Proof.
  apply (proj1 azimuthToDirection_sectors 100).
  - unfold Qle. simpl. lia.
  - unfold Qlt. simpl. lia.
Defined.

Lemma emitted_pass_movement_high :
  let positions :=
    map snd (Window.qualifyingSamples (calculator 10 1500) high 600000 600000) in
  Calculator.refinePass (calculator 10 1500) high 600000 600000 = Some highPass /\
  List.length positions = 3%nat /\
  exists sample label,
    nth_error positions 1 = Some sample /\
    SatellitePass.movement_azimuth highPass = Some (Js.Math_round (azimuth sample)) /\
    SatellitePass.movement_direction highPass = Some label /\
    In label Coordinates.directions.
Proof.
  cbv zeta. split; [vm_compute; reflexivity|].
  split; [vm_compute; reflexivity|].
  destruct (emitted_pass_movement (calculator 10 1500) high 600000 600000 highPass)
    as [_ (sample & Hnth & Hazimuth & _ & Hlabel)].
  - vm_compute. reflexivity.
  - destruct (Hlabel atan2_lower_bound_holds) as (label & Hdirection & Hin).
    exists sample, label. repeat split; assumption.
Defined.

(** The search finds the pass of ["high"] before the pass of ["low"]; the
    dataset lists them by start time. *)
Lemma calculatePasses_sorted_and_counted_manager :
  Calculator.findPasses (calculator 10 1500)
    [tle "1" "high"; flagged; tle "1" "low"] 0 86400000 = [highPass; lowPass] /\
  PassesData.passes passesData = [lowPass; highPass] /\
  StronglySorted
    (fun a b =>
       (Date_parse (SatellitePass.start_time_utc a)
        <= Date_parse (SatellitePass.start_time_utc b))%Z)
    (PassesData.passes passesData) /\
  PassesData.total_passes passesData = 2%Z.
Proof.
  split; [vm_compute; reflexivity|].
  split; [reflexivity|].
  destruct (calculatePasses_sorted_and_counted manager
              {| tleDataset := tleDataset manager;
                 calculatedPasses := [lowPass; highPass] |}
              None 0 5 passesData) as (Hsorted & Hcount & _).
  - vm_compute. reflexivity.
  - split; [exact Hsorted|exact Hcount].
Defined.

(** Sun at -20 degrees, satellite at 44.5 degrees: the points are
    50 + 24.72, rounded to 75, and the category is "Good". *)
Lemma rating_75_is_good :
  let v := Solar.calculateVisibilityRating (-20) true 44.5 in
  rating v = 75%Z /\
  category v = Good /\
  ~ (inject_Z (rating v)
       == RatingSpec.darkness (-20) + RatingSpec.elevationPoints 44.5) /\
  category v <> RatingSpec.categoryOf (inject_Z (rating v)).
Proof.
  cbv zeta. split; [reflexivity|]. split; [reflexivity|].
  split; [vm_compute; discriminate|vm_compute; discriminate].
Qed.

End Runs.

(** * Further properties of the code *)

(** ** Coordinate math *)

Lemma floor_shift (x : Q) (n : Z) : Qfloor (x + inject_Z n) = (Qfloor x + n)%Z.
Proof.
  apply JsFacts.floor_eq.
  - rewrite inject_Z_plus. assert (Hlo := Qfloor_le x). lra.
  - assert (Hhi := Qlt_floor x).
    rewrite !inject_Z_plus in *. change (inject_Z 1) with 1 in *. lra.
Qed.

Lemma sector_index_shift (azimuth : Q) :
  Js.Math_floor ((azimuth + 360 + 22.5) / 45) =
  (Js.Math_floor ((azimuth + 22.5) / 45) + 8)%Z.
Proof.
  unfold Js.Math_floor.
  assert (Hlo := Qfloor_le ((azimuth + 22.5) / 45)).
  assert (Hhi := Qlt_floor ((azimuth + 22.5) / 45)).
  apply JsFacts.floor_eq; rewrite !inject_Z_plus in *;
    change (inject_Z 1) with 1 in *; change (inject_Z 8) with 8;
    unfold Qdiv in *; change (/ 45) with (1 # 45) in *; lra.
Qed.

Lemma rem_negative (x y : Q) : x < 0 -> 0 < y -> - y < Js.rem x y /\ Js.rem x y <= 0.
Proof.
  intros Hx Hy. unfold Js.rem, Js.trunc.
  assert (Hq : y * (x / y) == x) by (apply Qmult_div_r; lra).
  assert (Hq0 : x / y < 0).
  { apply Qlt_shift_div_r; [exact Hy|lra]. }
  destruct (Js.ltb (x / y) 0) eqn:E; js_cmp; [|lra].
  assert (Hlo := Qle_ceiling (x / y)).
  assert (Hhi := Qceiling_lt (x / y)).
  unfold Z.sub in Hhi. rewrite inject_Z_plus, inject_Z_opp in Hhi.
  change (inject_Z 1) with 1 in Hhi.
  set (q := x / y) in *. set (c := inject_Z (Qceiling q)) in *.
  assert (H1 : 0 <= y * (c - q)) by (apply Qmult_le_0_compat; lra).
  assert (H2 : 0 < y * (q - (c - 1))) by (apply Qmult_lt_0_compat; lra).
  split; lra.
Qed.

(** X1. [azimuthToDirection] has a label for every azimuth from -22.5
    degrees upwards, and a full turn more gives the same label. *)
Theorem azimuthToDirection_full_turn (azimuth : Q) :
  -22.5 <= azimuth ->
  exists label,
    In label Coordinates.directions /\
    Coordinates.azimuthToDirection azimuth = Some label /\
    Coordinates.azimuthToDirection (azimuth + 360) = Some label.
Proof.
  intros Ha. unfold Coordinates.azimuthToDirection.
  rewrite sector_index_shift.
  set (k := Js.Math_floor ((azimuth + 22.5) / 45)).
  assert (Hk : (0 <= k)%Z).
  { apply JsFacts.floor_ge. change (inject_Z 0) with 0.
    unfold Qdiv. change (/ 45) with (1 # 45). lra. }
  rewrite !Z.rem_mod_nonneg by lia.
  replace ((k + 8) mod 8)%Z with (k mod 8)%Z
    by (rewrite <- (Z_mod_plus_full k 1 8); f_equal; lia).
  destruct (directions_get (k mod 8)) as (label & Hget & Hnth).
  { apply Z.mod_pos_bound. lia. }
  exists label. split; [eapply nth_error_In; eassumption|]. now split.
Qed.

(** X2. For an azimuth below -22.5 degrees (down to -337.5) the index is
    negative and [azimuthToDirection] returns [undefined]. *)
Theorem azimuthToDirection_negative_azimuth (azimuth : Q) :
  -337.5 <= azimuth -> azimuth < -22.5 ->
  Coordinates.azimuthToDirection azimuth = None.
Proof.
  intros Hlo Hhi. unfold Coordinates.azimuthToDirection.
  set (k := Js.Math_floor ((azimuth + 22.5) / 45)).
  assert (Hk : (-7 <= k < 0)%Z).
  { split.
    - apply JsFacts.floor_ge. change (inject_Z (-7)) with (-7).
      unfold Qdiv. change (/ 45) with (1 # 45). lra.
    - apply JsFacts.floor_lt. change (inject_Z 0) with 0.
      unfold Qdiv. change (/ 45) with (1 # 45). lra. }
  assert (Hc : (k = -7 \/ k = -6 \/ k = -5 \/ k = -4 \/ k = -3 \/ k = -2 \/ k = -1)%Z)
    by lia.
  repeat (destruct Hc as [->|Hc]; [reflexivity|]). subst k. rewrite Hc. reflexivity.
Qed.

(** X3. The azimuth [calculateAzimuth] returns lies in [0, 360), as
    [Math.atan2] keeps its range. *)
Theorem calculateAzimuth_normalized `{JsMath} (satLat satLon obsLat obsLon : Q) :
  atan2_lower_bound ->
  0 <= Coordinates.calculateAzimuth satLat satLon obsLat obsLon /\
  Coordinates.calculateAzimuth satLat satLon obsLat obsLon < 360.
Proof.
  intros Hb. unfold Coordinates.calculateAzimuth. cbv zeta.
  apply rem_nonneg; [|lra].
  match goal with |- 0 <= Coordinates.radToDeg (Math_atan2 ?y ?x) + 360 =>
    specialize (Hb y x) end.
  lra.
Qed.

(** X4. The sidereal time [gmst] returns is normalized: it lies in
    [0, 2 pi) for every Julian date. *)
Theorem gmst_normalized `{JsMath} (jd : Q) :
  0 < Math_PI ->
  0 <= Coordinates.gmst jd /\ Coordinates.gmst jd < 2 * Math_PI.
Proof.
  intros Hpi. unfold Coordinates.gmst. cbv zeta.
  set (g := 280.46061837 + 360.98564736629 * (jd - 2451545.0)
            + 0.000387933 * ((jd - 2451545.0) / 36525.0)
              * ((jd - 2451545.0) / 36525.0)).
  assert (Hd : exists d, 0 <= d /\ d < 360 /\
    (if Js.ltb (Js.rem g 360) 0 then Js.rem g 360 + 360 else Js.rem g 360) = d).
  { destruct (Qlt_le_dec g 0) as [Hneg|Hpos].
    - destruct (rem_negative g 360 Hneg) as [Hlo Hhi]; [lra|].
      destruct (Js.ltb (Js.rem g 360) 0) eqn:E; js_cmp; eexists; repeat split; lra.
    - destruct (rem_nonneg g 360 Hpos) as [Hlo Hhi]; [lra|].
      destruct (Js.ltb (Js.rem g 360) 0) eqn:E; js_cmp; eexists; repeat split; lra. }
  destruct Hd as (d & Hd0 & Hd360 & ->).
  unfold Coordinates.degToRad, Qdiv. change (/ 180.0) with (10 # 1800).
  split; nra.
Qed.

(** ** Visibility rating *)

(** The points of an illuminated satellite before rounding. *)
Lemma lit_rating_points (sunElevation satElevation : Q) :
  exists darkness,
    (darkness = 50 \/ darkness = 40 \/ darkness = 25 \/ darkness = 10 \/ darkness = 0) /\
    let points := 0 + darkness + Js.Math_min 50 (satElevation / 90 * 50) in
    Solar.calculateVisibilityRating sunElevation true satElevation =
    {| rating := Js.Math_round points;
       category :=
         if Js.geb points 75 then Excellent
         else if Js.geb points 50 then Good
         else if Js.geb points 25 then Fair
         else Poor;
       isIlluminated := true;
       sunElevation := sunElevation |}.
Proof.
  unfold Solar.calculateVisibilityRating. cbn [negb].
  destruct (Js.leb sunElevation (-18)); [exists 50; split; [tauto|reflexivity]|].
  destruct (Js.leb sunElevation (-12)); [exists 40; split; [tauto|reflexivity]|].
  destruct (Js.leb sunElevation (-6)); [exists 25; split; [tauto|reflexivity]|].
  destruct (Js.ltb sunElevation 0); [exists 10; split; [tauto|reflexivity]|].
  exists 0. split; [tauto|].
  cbv zeta. reflexivity.
Qed.

Lemma round_le (x : Q) (n : Z) : x <= inject_Z n -> (Js.Math_round x <= n)%Z.
Proof.
  intros Hx. rewrite <- (JsFacts.Math_round_Z n). now apply JsFacts.Math_round_mono.
Qed.

Lemma round_ge (x : Q) (n : Z) : inject_Z n <= x -> (n <= Js.Math_round x)%Z.
Proof.
  intros Hx. rewrite <- (JsFacts.Math_round_Z n) at 1.
  now apply JsFacts.Math_round_mono.
Qed.

Lemma rating_upper (sunElevation satElevation : Q) (satIlluminated : bool) :
  (rating (Solar.calculateVisibilityRating sunElevation satIlluminated satElevation)
   <= 100)%Z.
Proof.
  destruct satIlluminated; [|cbn; lia].
  destruct (lit_rating_points sunElevation satElevation) as (d & Hd & ->).
  cbn [rating]. apply round_le. change (inject_Z 100) with 100.
  assert (He := Q.le_min_l 50 (satElevation / 90 * 50)). unfold Js.Math_min.
  destruct Hd as [->|[->|[->|[->| ->]]]]; lra.
Qed.

Lemma rating_lower (sunElevation satElevation : Q) (satIlluminated : bool) :
  0 <= satElevation ->
  (0 <= rating (Solar.calculateVisibilityRating sunElevation satIlluminated satElevation))%Z.
Proof.
  intros Hsat. destruct satIlluminated; [|cbn; lia].
  destruct (lit_rating_points sunElevation satElevation) as (d & Hd & ->).
  cbn [rating]. apply round_ge. change (inject_Z 0) with 0.
  assert (He : 0 <= Js.Math_min 50 (satElevation / 90 * 50)).
  { apply Q.min_glb; [lra|]. unfold Qdiv. change (/ 90) with (1 # 90). lra. }
  destruct Hd as [->|[->|[->|[->| ->]]]]; lra.
Qed.

(** X5. The rating is at most 100 whatever the input, and it is not negative
    when the satellite is at or above the horizon. *)
Theorem rating_within_0_100 (sunElevation satElevation : Q) (satIlluminated : bool) :
  (rating (Solar.calculateVisibilityRating sunElevation satIlluminated satElevation)
   <= 100)%Z /\
  (0 <= satElevation ->
   (0 <= rating (Solar.calculateVisibilityRating sunElevation satIlluminated satElevation))%Z).
Proof.
  split; [apply rating_upper|apply rating_lower].
Qed.

(** X6. The category agrees with the rounded rating up to the rounding:
    "Excellent" comes with a rating of 75 or more, "Good" with 50 to 75,
    "Fair" with 25 to 50 and "Poor" with at most 25. *)
Theorem category_matches_rating (sunElevation satElevation : Q) (satIlluminated : bool) :
  let v := Solar.calculateVisibilityRating sunElevation satIlluminated satElevation in
  match category v with
  | Excellent => (75 <= rating v)%Z
  | Good => (50 <= rating v <= 75)%Z
  | Fair => (25 <= rating v <= 50)%Z
  | Poor => (rating v <= 25)%Z
  end.
Proof.
  cbv zeta. destruct satIlluminated; [|cbn; lia].
  destruct (lit_rating_points sunElevation satElevation) as (d & _ & ->).
  cbv zeta. cbn [rating category].
  set (points := 0 + d + Js.Math_min 50 (satElevation / 90 * 50)).
  destruct (Js.geb points 75) eqn:E1; js_cmp.
  { now apply round_ge. }
  destruct (Js.geb points 50) eqn:E2; js_cmp.
  { split; [now apply round_ge|apply round_le; change (inject_Z 75) with 75; lra]. }
  destruct (Js.geb points 25) eqn:E3; js_cmp.
  { split; [now apply round_ge|apply round_le; change (inject_Z 50) with 50; lra]. }
  apply round_le. change (inject_Z 25) with 25. lra.
Qed.

(** X7. The rating never drops when the sun is lower or the satellite is
    higher. *)
Theorem rating_monotone (sunElevation sunElevation' satElevation satElevation' : Q)
    (satIlluminated : bool) :
  sunElevation' <= sunElevation -> satElevation <= satElevation' ->
  (rating (Solar.calculateVisibilityRating sunElevation satIlluminated satElevation)
   <= rating (Solar.calculateVisibilityRating sunElevation' satIlluminated satElevation'))%Z.
Proof.
  intros Hsun Hsat. destruct satIlluminated; [|cbn; lia].
  unfold Solar.calculateVisibilityRating. cbn [negb rating].
  apply JsFacts.Math_round_mono.
  assert (He : Js.Math_min 50 (satElevation / 90 * 50)
               <= Js.Math_min 50 (satElevation' / 90 * 50)).
  { unfold Js.Math_min. apply Q.min_glb.
    - apply Q.le_min_l.
    - eapply Qle_trans; [apply Q.le_min_r|].
      unfold Qdiv. change (/ 90) with (1 # 90). lra. }
  destruct (Js.leb sunElevation (-18)) eqn:A1, (Js.leb sunElevation (-12)) eqn:A2,
           (Js.leb sunElevation (-6)) eqn:A3, (Js.ltb sunElevation 0) eqn:A4,
           (Js.leb sunElevation' (-18)) eqn:B1, (Js.leb sunElevation' (-12)) eqn:B2,
           (Js.leb sunElevation' (-6)) eqn:B3, (Js.ltb sunElevation' 0) eqn:B4;
    js_cmp; lra.
Qed.

(** ** The propagator and the candidates *)

Section PropagatorMore.
Context `{JsMath} `{JsDate} `{SatelliteJs}.

(** X9. A position [propagate] returns carries the requested instant as its
    time, and its azimuth lies in [0, 360), as [Math.atan2] keeps its
    range. *)
Theorem propagate_position (propagator : SatellitePropagator) (date : Z)
    (observerLat observerLon : Q) (pos : SatellitePosition) :
  atan2_lower_bound ->
  Propagator.propagate propagator date observerLat observerLon = Some pos ->
  Propagator.isValid propagator = true /\
  time pos = date /\
  0 <= azimuth pos /\ azimuth pos < 360.
Proof.
  intros Hb Hp. split.
  - unfold Propagator.propagate in Hp. unfold Propagator.isValid.
    destruct (satrec propagator); [reflexivity|discriminate].
  - split; [eapply propagate_time; eassumption|].
    eapply propagate_azimuth; eassumption.
Qed.

(** X10. The candidates are the records that parse and whose inclination is
    a number, in their order: the latitude of the observer plays no part in
    the selection. *)
Theorem filterCandidateSatellites_selection (this : PassCalculator)
    (satellites : list TLEData) :
  Calculator.filterCandidateSatellites this satellites =
  filter
    (fun sat =>
       match Propagator.getOrbitalElements (Propagator.new sat) with
       | Some elements => isNumber (inclination elements)
       | None => false
       end)
    satellites.
Proof.
  induction satellites as [|sat rest IH]; [reflexivity|].
  unfold Calculator.filterCandidateSatellites in *. cbn [filter].
  destruct (Propagator.getOrbitalElements (Propagator.new sat)) as [elements|] eqn:Hel.
  - rewrite (couldBeVisible_number _ _ _ Hel).
    assert (Hvalid : Propagator.isValid (Propagator.new sat) = true).
    { unfold Propagator.isValid. unfold Propagator.getOrbitalElements in Hel.
      destruct (satrec (Propagator.new sat)); [reflexivity|discriminate]. }
    rewrite Hvalid. cbn [negb].
    destruct (isNumber (inclination elements)); [now rewrite IH|exact IH].
  - assert (Hvalid : Propagator.isValid (Propagator.new sat) = false).
    { unfold Propagator.isValid. unfold Propagator.getOrbitalElements in Hel.
      destruct (satrec (Propagator.new sat)); [discriminate|reflexivity]. }
    rewrite Hvalid. exact IH.
Qed.

Lemma findPasses_candidates (this : PassCalculator) (satellites : list TLEData)
    (startTime endTime : Z) :
  Calculator.findPasses this satellites startTime endTime =
  flat_map
    (fun sat =>
       if Propagator.isValid (Propagator.new sat)
          && Propagator.couldBeVisible (Propagator.new sat)
               (Observer.latitude (observer this))
       then Calculator.findSatellitePasses this (Propagator.new sat) startTime endTime
       else [])
    satellites.
Proof.
  unfold Calculator.findPasses, Calculator.filterCandidateSatellites.
  induction satellites as [|sat rest IH]; [reflexivity|].
  cbn [flat_map].
  destruct (Propagator.isValid (Propagator.new sat)) eqn:E; cbn [negb andb].
  - destruct (Propagator.couldBeVisible _ _) eqn:V.
    + rewrite E. cbn [negb]. now rewrite IH.
    + cbn [app]. exact IH.
  - exact IH.
Qed.

(** X11. The satellites of a batch are searched one by one: the passes of
    two batches put together are the passes of the first followed by the
    passes of the second, and an empty batch gives none. *)
Theorem findPasses_app (this : PassCalculator) (batch1 batch2 : list TLEData)
    (startTime endTime : Z) :
  Calculator.findPasses this (batch1 ++ batch2) startTime endTime =
  Calculator.findPasses this batch1 startTime endTime ++
  Calculator.findPasses this batch2 startTime endTime /\
  Calculator.findPasses this [] startTime endTime = [].
Proof.
  split; [|reflexivity].
  rewrite !findPasses_candidates. apply flat_map_app.
Qed.

End PropagatorMore.

(** ** The coarse scan *)

Section CoarseScan.
Context `{JsMath} `{JsDate} `{SatelliteJs}.
Variable this : PassCalculator.
Variable propagator : SatellitePropagator.
Variable startTime : Z.

Local Abbreviation instant := (Scan.coarseInstant startTime).
Local Abbreviation qualifiesAt := (Scan.qualifiesAt this propagator).
Local Abbreviation refinePass := (Calculator.refinePass this propagator).
Local Abbreviation coarse_inv := (Scan.coarse_inv this propagator startTime).

Lemma coarse_inv_init : coarse_inv 0 (Calculator.coarseInit startTime).
Proof.
  unfold Scan.coarse_inv, Scan.coarseInstant. cbn. repeat split.
  - lia.
  - intros pass [].
  - discriminate.
Qed.

Lemma coarse_inv_step (k : nat) (s : Coarse.state) :
  coarse_inv k s -> coarse_inv (S k) (Calculator.coarseBody this propagator s).
Proof.
  intros (Hclock & Hpasses & Hvisible).
  assert (Hnext : (Coarse.currentTime s + Calculator.coarseStep)%Z = instant (S k)).
  { rewrite Hclock. unfold Scan.coarseInstant. lia. }
  assert (Hkeep : forall pass, In pass (Coarse.passes s) ->
     exists i j, (i < j < S k)%nat /\ qualifiesAt (instant i) = true /\
       refinePass (instant i) (instant j) = Some pass).
  { intros pass Hin. destruct (Hpasses pass Hin) as (i & j & Hij & Hq & Hr).
    exists i, j. split; [lia|auto]. }
  assert (Hq : qualifiesAt (instant k) =
    match Propagator.propagate propagator (Coarse.currentTime s)
            (Observer.latitude (observer this)) (Observer.longitude (observer this)) with
    | Some position =>
        Js.geb (elevation position) (Parameters.min_elevation_deg (parameters this))
    | None => false
    end).
  { unfold Scan.qualifiesAt. now rewrite Hclock. }
  assert (Hnot : coarse_inv (S k)
    (let s' :=
       match Coarse.wasVisible s, Coarse.passStart s with
       | true, Some passStart =>
           {| Coarse.currentTime := Coarse.currentTime s;
              Coarse.wasVisible := false;
              Coarse.passStart := None;
              Coarse.passPositions := [];
              Coarse.passes :=
                match refinePass passStart (Coarse.currentTime s) with
                | Some pass => Coarse.passes s ++ [pass]
                | None => Coarse.passes s
                end |}
       | _, _ => s
       end in
     {| Coarse.currentTime := (Coarse.currentTime s + Calculator.coarseStep)%Z;
        Coarse.wasVisible := Coarse.wasVisible s';
        Coarse.passStart := Coarse.passStart s';
        Coarse.passPositions := Coarse.passPositions s';
        Coarse.passes := Coarse.passes s' |})).
  { cbv zeta. destruct (Coarse.wasVisible s) eqn:EV.
    - destruct (Hvisible eq_refl) as (i & Hi & Hqi & Hstart). rewrite Hstart.
      cbn [Coarse.currentTime Coarse.wasVisible Coarse.passStart Coarse.passes].
      split; [exact Hnext|]. split; [|discriminate].
      rewrite Hclock.
      destruct (refinePass (instant i) (instant k)) as [pass|] eqn:ER; [|exact Hkeep].
      intros pass' Hin. apply in_app_iff in Hin. destruct Hin as [Hin|[<-|[]]].
      + now apply Hkeep.
      + exists i, k. split; [lia|auto].
    - split; [exact Hnext|]. split; [exact Hkeep|].
      cbn [Coarse.wasVisible]. rewrite EV. discriminate. }
  unfold Calculator.coarseBody.
  destruct (Propagator.propagate propagator (Coarse.currentTime s) _ _)
    as [position|]; [|exact Hnot].
  destruct (Js.geb (elevation position) _) eqn:EG; [|exact Hnot].
  destruct (Coarse.wasVisible s) eqn:EV; cbn [negb].
  - destruct (Hvisible eq_refl) as (i & Hi & Hqi & Hstart).
    split; [exact Hnext|]. split; [exact Hkeep|].
    cbn [Coarse.wasVisible Coarse.passStart]. intros _.
    exists i. split; [lia|auto].
  - split; [exact Hnext|]. split; [exact Hkeep|].
    cbn [Coarse.wasVisible Coarse.passStart]. intros _.
    exists k. split; [lia|]. split; [exact Hq|now rewrite Hclock].
Qed.

Lemma coarse_inv_iter (k : nat) :
  coarse_inv k
    (Nat.iter k (Calculator.coarseBody this propagator) (Calculator.coarseInit startTime)).
Proof.
  induction k as [|k IH]; [apply coarse_inv_init|].
  rewrite Nat.iter_succ. now apply coarse_inv_step.
Qed.

Lemma coarseStep_pos : (0 < Calculator.coarseStep)%Z.
Proof. reflexivity. Qed.

(** Where the passes of one satellite come from. *)
Lemma findSatellitePasses_windows (endTime : Z) (pass : SatellitePass.t) :
  In pass (Calculator.findSatellitePasses this propagator startTime endTime) ->
  exists (i : nat) (approxEnd : Z),
    (instant i <= approxEnd <= endTime)%Z /\
    qualifiesAt (instant i) = true /\
    refinePass (instant i) approxEnd = Some pass.
Proof.
  unfold Calculator.findSatellitePasses.
  destruct (while_rounds Coarse.currentTime (Calculator.coarseBody this propagator)
              Calculator.coarseStep endTime (Calculator.coarseInit startTime)
              coarseStep_pos (fun s => eq_refl)) as [Heq _].
  change (Coarse.currentTime (Calculator.coarseInit startTime)) with startTime in Heq.
  rewrite Heq. clear Heq.
  set (n := rounds startTime endTime Calculator.coarseStep).
  destruct (coarse_inv_iter n) as (_ & Hpasses & Hvisible).
  set (s := Nat.iter n _ _) in *.
  assert (Hinside : forall i, (i < n)%nat -> (instant i <= endTime)%Z).
  { intros i Hi. apply rounds_inside; [apply coarseStep_pos|exact Hi]. }
  assert (Hloop : In pass (Coarse.passes s) ->
    exists (i : nat) (approxEnd : Z),
      (instant i <= approxEnd <= endTime)%Z /\
      qualifiesAt (instant i) = true /\
      refinePass (instant i) approxEnd = Some pass).
  { intros Hin. destruct (Hpasses pass Hin) as (i & j & Hij & Hq & Hr).
    exists i, (instant j). split; [|auto].
    split; [|apply Hinside; lia].
    unfold Scan.coarseInstant. assert (Hs := coarseStep_pos). nia. }
  destruct (Coarse.wasVisible s) eqn:EV; [|exact Hloop].
  destruct (Hvisible eq_refl) as (i & Hi & Hq & Hstart). rewrite Hstart.
  destruct (refinePass (instant i) endTime) as [refinedPass|] eqn:ER; [|exact Hloop].
  intros Hin. apply in_app_iff in Hin. destruct Hin as [Hin|[<-|[]]].
  - now apply Hloop.
  - exists i, endTime. split; [|auto]. split; [now apply Hinside|lia].
Qed.

End CoarseScan.

Section SearchFacts.
Context `{JsMath} `{JsDate} `{SatelliteJs}.
Variable this : PassCalculator.

(** X12. Every pass reported for a satellite is the refinement of a window
    that begins at a coarse instant at which the satellite qualifies and
    ends no later than the end of the search. *)
Theorem findSatellitePasses_from_windows (propagator : SatellitePropagator)
    (startTime endTime : Z) (pass : SatellitePass.t) :
  In pass (Calculator.findSatellitePasses this propagator startTime endTime) ->
  exists approxStart approxEnd,
    In approxStart (Scan.coarseInstants startTime endTime) /\
    Scan.qualifiesAt this propagator approxStart = true /\
    (approxStart <= approxEnd <= endTime)%Z /\
    Calculator.refinePass this propagator approxStart approxEnd = Some pass.
Proof.
  intros Hin.
  destruct (findSatellitePasses_windows this propagator startTime endTime pass Hin)
    as (i & approxEnd & Hb & Hq & Hr).
  exists (Scan.coarseInstant startTime i), approxEnd.
  split; [|auto]. unfold Scan.coarseInstants. apply in_map. apply in_seq.
  split; [lia|]. cbn [Nat.add].
  assert (Hout := rounds_outside startTime endTime Calculator.coarseStep coarseStep_pos).
  unfold Scan.coarseInstant in Hb. assert (Hs := coarseStep_pos). nia.
Qed.

(** X13. A satellite that qualifies at none of the coarse instants has no
    pass, whatever it does between them. *)
Theorem findSatellitePasses_needs_coarse_sample (propagator : SatellitePropagator)
    (startTime endTime : Z) :
  Forall (fun t => Scan.qualifiesAt this propagator t = false)
    (Scan.coarseInstants startTime endTime) ->
  Calculator.findSatellitePasses this propagator startTime endTime = [].
Proof.
  intros Hnone.
  destruct (Calculator.findSatellitePasses this propagator startTime endTime)
    as [|pass rest] eqn:E; [reflexivity|].
  assert (Hin : In pass (Calculator.findSatellitePasses this propagator startTime endTime))
    by (rewrite E; now left).
  destruct (findSatellitePasses_windows this propagator startTime endTime pass Hin)
    as (i & approxEnd & Hb & Hq & Hr).
  rewrite Forall_forall in Hnone.
  rewrite (Hnone (Scan.coarseInstant startTime i)) in Hq; [discriminate|].
  unfold Scan.coarseInstants. apply in_map. apply in_seq.
  split; [lia|]. cbn [Nat.add].
  assert (Hout := rounds_outside startTime endTime Calculator.coarseStep coarseStep_pos).
  unfold Scan.coarseInstant in Hb. assert (Hs := coarseStep_pos). nia.
Qed.

(** X14. A search whose end lies before its start finds nothing, for any
    batch of satellites. *)
Theorem findPasses_empty_horizon (satellites : list TLEData) (startTime endTime : Z) :
  (endTime < startTime)%Z ->
  Calculator.findPasses this satellites startTime endTime = [].
Proof.
  intros Hlt. rewrite findPasses_candidates.
  induction satellites as [|sat rest IH]; [reflexivity|].
  cbn [flat_map]. rewrite IH, app_nil_r.
  destruct (Propagator.isValid (Propagator.new sat)
            && Propagator.couldBeVisible (Propagator.new sat) _); [|reflexivity].
  destruct (Calculator.findSatellitePasses this (Propagator.new sat) startTime endTime)
    as [|pass more] eqn:E; [reflexivity|].
  assert (Hin : In pass
    (Calculator.findSatellitePasses this (Propagator.new sat) startTime endTime))
    by (rewrite E; now left).
  destruct (findSatellitePasses_windows this _ startTime endTime pass Hin)
    as (i & approxEnd & Hb & _).
  unfold Scan.coarseInstant in Hb. assert (Hs := coarseStep_pos). nia.
Qed.

Lemma findPasses_origin (satellites : list TLEData) (startTime endTime : Z)
    (pass : SatellitePass.t) :
  In pass (Calculator.findPasses this satellites startTime endTime) ->
  exists sat approxStart approxEnd,
    In sat satellites /\
    Propagator.isValid (Propagator.new sat) = true /\
    SatellitePass.satellite pass = tle_name sat /\
    SatellitePass.positions pass = [] /\
    (startTime <= approxStart <= approxEnd)%Z /\ (approxEnd <= endTime)%Z /\
    Calculator.refinePass this (Propagator.new sat) approxStart approxEnd = Some pass.
Proof.
  rewrite findPasses_candidates, in_flat_map.
  intros (sat & Hsat & Hin).
  destruct (Propagator.isValid (Propagator.new sat)) eqn:EV; [|destruct Hin].
  destruct (Propagator.couldBeVisible (Propagator.new sat) _); [|destruct Hin].
  cbn [andb] in Hin.
  destruct (findSatellitePasses_windows this _ startTime endTime pass Hin)
    as (i & approxEnd & Hb & _ & Hr).
  exists sat, (Scan.coarseInstant startTime i), approxEnd.
  split; [exact Hsat|]. split; [exact EV|].
  assert (Hrec := refinePass_Some this _ _ _ _ Hr). cbv zeta in Hrec.
  destruct Hrec as (ts & ps & more & te & pe & tp & pp & _ & _ & _ & _ & _ & _ & _ & Hpass).
  split; [now rewrite Hpass|]. split; [now rewrite Hpass|].
  split; [|split; [lia|exact Hr]].
  unfold Scan.coarseInstant in *. assert (Hs := coarseStep_pos). nia.
Qed.

(** X15. Every pass [findPasses] yields belongs to a record of the batch
    that parses: it carries the name of that record, an empty list of
    positions, and it is the refinement of a window inside the search. *)
Theorem findPasses_provenance (satellites : list TLEData) (startTime endTime : Z)
    (pass : SatellitePass.t) :
  In pass (Calculator.findPasses this satellites startTime endTime) ->
  exists sat approxStart approxEnd,
    In sat satellites /\
    Propagator.isValid (Propagator.new sat) = true /\
    SatellitePass.satellite pass = tle_name sat /\
    SatellitePass.positions pass = [] /\
    (startTime <= approxStart <= approxEnd)%Z /\ (approxEnd <= endTime)%Z /\
    Calculator.refinePass this (Propagator.new sat) approxStart approxEnd = Some pass.
Proof. apply findPasses_origin. Qed.

End SearchFacts.

(** ** More on pass records *)

Lemma StronglySorted_snoc {A : Type} (R : A -> A -> Prop) (l : list A) (x : A) :
  StronglySorted R l -> Forall (fun a => R a x) l -> StronglySorted R (l ++ [x]).
Proof.
  induction 1 as [|y l Hs IH Hy]; intros Hall; cbn [app].
  - repeat constructor.
  - inversion Hall as [|? ? Hyx Hl]; subst. constructor; [now apply IH|].
    apply Forall_app. split; [exact Hy|now constructor].
Qed.

Lemma last_in_tail {A : Type} (x y z : A) (rest : list A) :
  hd_error (rev (x :: y :: rest)) = Some z -> In z (y :: rest).
Proof.
  change (rev (x :: y :: rest)) with (rev (y :: rest) ++ [x]).
  intros Hhd. apply in_rev.
  destruct (rev (y :: rest)) as [|w l] eqn:ER.
  - apply (f_equal (@List.length A)) in ER. rewrite length_rev in ER. discriminate.
  - cbn in Hhd. injection Hhd as <-. now left.
Qed.

Section PassMore.
Context `{JsMath} `{JsDate} `{SatelliteJs}.
Variable this : PassCalculator.
Variable propagator : SatellitePropagator.

Local Abbreviation qualifyingUpTo := (Window.qualifyingUpTo this propagator).
Local Abbreviation qualifyingSamples := (Window.qualifyingSamples this propagator).

Lemma qualifyingUpTo_sorted (searchStart : Z) (k : nat) :
  StronglySorted (fun a b => (fst a < fst b)%Z) (qualifyingUpTo searchStart k).
Proof.
  induction k as [|k IH]; [constructor|].
  rewrite qualifyingUpTo_S.
  destruct (Window.sampleAt this propagator _) as [|y l] eqn:ES.
  - now rewrite app_nil_r.
  - assert (Hy : In y (Window.sampleAt this propagator
                         (searchStart + Z.of_nat k * Calculator.fineStep)%Z))
      by (rewrite ES; now left).
    assert (Hl : l = []).
    { revert ES. unfold Window.sampleAt.
      destruct (Propagator.propagate _ _ _ _); [|discriminate].
      destruct (Js.geb _ _); [|discriminate]. now intros [= _ <-]. }
    subst l. destruct y as [ty py]. apply sampleAt_In in Hy. destruct Hy as (-> & _).
    apply StronglySorted_snoc; [exact IH|].
    apply Forall_forall. intros [t p] Hin. cbn [fst].
    apply qualifyingUpTo_In in Hin. destruct Hin as (i & Hi & -> & _).
    assert (Hs := fineStep_pos). nia.
Qed.

(** The instants of the first and the last qualifying sample of an emitted
    pass. *)
Lemma emitted_pass_span (approxStart approxEnd : Z) (pass : SatellitePass.t) :
  Calculator.refinePass this propagator approxStart approxEnd = Some pass ->
  exists (i j : nat),
    (i < j)%nat /\
    (approxStart - 2 * 60 * 1000 + Z.of_nat j * Calculator.fineStep
       <= approxEnd + 2 * 60 * 1000)%Z /\
    SatellitePass.start_time_utc pass =
      toISOString (approxStart - 2 * 60 * 1000 + Z.of_nat i * Calculator.fineStep)%Z /\
    SatellitePass.end_time_utc pass =
      toISOString (approxStart - 2 * 60 * 1000 + Z.of_nat j * Calculator.fineStep)%Z /\
    SatellitePass.duration_seconds pass = (10 * (Z.of_nat j - Z.of_nat i))%Z.
Proof.
  intros Hr. apply refinePass_Some in Hr. cbv zeta in Hr.
  destruct Hr as (ts & ps & rest & te & pe & tp & pp &
                  HQ & Hlast & _ & Hlen & _ & _ & _ & Hpass).
  set (searchStart := (approxStart - 2 * 60 * 1000)%Z).
  set (n := rounds searchStart (approxEnd + 2 * 60 * 1000) Calculator.fineStep).
  assert (Hsorted := qualifyingUpTo_sorted searchStart n).
  change (qualifyingUpTo searchStart n) with (qualifyingSamples approxStart approxEnd)
    in Hsorted.
  rewrite HQ in Hlen, Hlast, Hsorted.
  destruct rest as [|y rest]; [cbn in Hlen; lia|].
  assert (Hte : In (te, pe) (y :: rest)) by (eapply last_in_tail; eassumption).
  inversion Hsorted as [|? ? _ Hall]; subst.
  rewrite Forall_forall in Hall. specialize (Hall _ Hte). cbn [fst] in Hall.
  assert (Hfirst : In (ts, ps) (qualifyingSamples approxStart approxEnd))
    by (rewrite HQ; now left).
  assert (Hend : In (te, pe) (qualifyingSamples approxStart approxEnd))
    by (rewrite HQ; now right).
  apply (qualifyingUpTo_In this propagator searchStart n) in Hfirst, Hend.
  destruct Hfirst as (i & Hi & Hts & _). destruct Hend as (j & Hj & Hte' & _).
  exists i, j. assert (Hs := fineStep_pos).
  split; [nia|]. split.
  { rewrite <- Hte'. subst te. apply rounds_inside; [exact Hs|exact Hj]. }
  cbn [SatellitePass.start_time_utc SatellitePass.end_time_utc
       SatellitePass.duration_seconds].
  rewrite Hts, Hte'. split; [reflexivity|]. split; [reflexivity|].
  replace (searchStart + Z.of_nat j * Calculator.fineStep
           - (searchStart + Z.of_nat i * Calculator.fineStep))%Z
    with (1000 * (10 * (Z.of_nat j - Z.of_nat i)))%Z
    by (unfold Calculator.fineStep; lia).
  set (m := (10 * (Z.of_nat j - Z.of_nat i))%Z).
  unfold Js.Math_round.
  apply JsFacts.floor_eq; rewrite ?inject_Z_plus, inject_Z_mult;
    change (inject_Z 1000) with 1000; change (inject_Z 1) with 1;
    unfold Qdiv; change (/ 1000) with (1 # 1000); lra.
Qed.

(** X16. An emitted pass starts no earlier than two minutes before its
    window and ends no later than two minutes after it; it lasts at least
    ten seconds, and its duration, a whole multiple of ten seconds, is
    exactly the time from start to end. *)
Theorem emitted_pass_duration (approxStart approxEnd : Z) (pass : SatellitePass.t) :
  Calculator.refinePass this propagator approxStart approxEnd = Some pass ->
  exists ts te,
    SatellitePass.start_time_utc pass = toISOString ts /\
    SatellitePass.end_time_utc pass = toISOString te /\
    (approxStart - 120000 <= ts)%Z /\ (te <= approxEnd + 120000)%Z /\
    (1000 * SatellitePass.duration_seconds pass = te - ts)%Z /\
    (10 <= SatellitePass.duration_seconds pass)%Z /\
    (SatellitePass.duration_seconds pass mod 10 = 0)%Z.
Proof.
  intros Hr. destruct (emitted_pass_span _ _ _ Hr) as (i & j & Hij & Hend & Hs & He & Hd).
  eexists _, _. split; [exact Hs|]. split; [exact He|].
  rewrite Hd. unfold Calculator.fineStep in *.
  repeat split; try lia.
  rewrite Z.mul_comm. apply Z_mod_mult.
Qed.

(** X17. In an emitted pass the start azimuth is the rounded azimuth of the
    first qualifying sample, a whole number of degrees from 0 to 360, and
    the start direction is the compass label [azimuthToDirection] gives for
    it, as [Math.atan2] keeps its range. *)
Theorem emitted_pass_start_direction (approxStart approxEnd : Z)
    (pass : SatellitePass.t) :
  atan2_lower_bound ->
  Calculator.refinePass this propagator approxStart approxEnd = Some pass ->
  exists ts ps rest label,
    qualifyingSamples approxStart approxEnd = (ts, ps) :: rest /\
    SatellitePass.start_azimuth pass = Js.Math_round (azimuth ps) /\
    (0 <= SatellitePass.start_azimuth pass <= 360)%Z /\
    SatellitePass.start_direction pass = Some label /\
    Coordinates.azimuthToDirection (inject_Z (SatellitePass.start_azimuth pass))
      = Some label /\
    In label Coordinates.directions.
Proof.
  intros Hatan Hr. apply refinePass_Some in Hr. cbv zeta in Hr.
  destruct Hr as (ts & ps & rest & te & pe & tp & pp &
                  HQ & _ & _ & _ & _ & _ & _ & Hpass).
  assert (Hfirst : In (ts, ps) (qualifyingSamples approxStart approxEnd))
    by (rewrite HQ; now left).
  apply (qualifyingUpTo_In this propagator) in Hfirst.
  destruct Hfirst as (i & _ & _ & Hp & _).
  destruct (propagate_azimuth _ _ _ _ _ Hatan Hp) as [Hlo Hhi].
  assert (Hrange : (0 <= Js.Math_round (azimuth ps) <= 360)%Z).
  { split; [apply round_ge|apply round_le].
    - change (inject_Z 0) with 0. lra.
    - change (inject_Z 360) with 360. lra. }
  destruct (azimuthToDirection_defined (inject_Z (Js.Math_round (azimuth ps))))
    as (label & Hlabel & Hdir).
  { change 0 with (inject_Z 0). rewrite <- Zle_Qle. lia. }
  exists ts, ps, rest, label. subst pass.
  cbn [SatellitePass.start_azimuth SatellitePass.start_direction].
  repeat split; auto; lia.
Qed.

(** X18. The visibility of an emitted pass is assessed at its peak sample;
    the rating lies between 0 and 100 and the category is one of the four
    names. *)
Theorem emitted_pass_visibility (approxStart approxEnd : Z) (pass : SatellitePass.t) :
  Calculator.refinePass this propagator approxStart approxEnd = Some pass ->
  exists tp pp,
    In (tp, pp) (qualifyingSamples approxStart approxEnd) /\
    Forall (fun sample => elevation (snd sample) <= elevation pp)
      (qualifyingSamples approxStart approxEnd) /\
    SatellitePass.max_elevation_time_utc pass = toISOString tp /\
    let visibility :=
      Propagator.calculateVisibility propagator pp
        (Observer.latitude (observer this)) (Observer.longitude (observer this)) in
    SatellitePass.visibility_rating pass = rating visibility /\
    SatellitePass.visibility_category pass = Category_string (category visibility) /\
    (0 <= SatellitePass.visibility_rating pass <= 100)%Z /\
    In (SatellitePass.visibility_category pass)
      ["Excellent"; "Good"; "Fair"; "Poor"]%string.
Proof.
  intros Hr. apply refinePass_Some in Hr. cbv zeta in Hr.
  destruct Hr as (ts & ps & rest & te & pe & tp & pp &
                  _ & _ & Hin & _ & Hpos & Hmax & _ & Hpass).
  exists tp, pp. split; [exact Hin|]. split.
  { apply Forall_forall. intros [t p] Ht. cbn [snd]. eauto. }
  subst pass.
  cbn [SatellitePass.max_elevation_time_utc SatellitePass.visibility_rating
       SatellitePass.visibility_category].
  split; [reflexivity|]. cbv zeta.
  split; [reflexivity|]. split; [reflexivity|].
  unfold Propagator.calculateVisibility.
  destruct (Solar.calculateSolarPosition _ _ _) as [sunElevation sunAzimuth].
  split.
  - split; [apply rating_lower; lra|apply rating_upper].
  - destruct (category _); cbn; tauto.
Qed.

End PassMore.

(** ** The dataset and the page *)

Section ManagerMore.
Context `{JsMath} `{JsDate} `{SatelliteJs}.

(** X20. The dataset of a calculation carries the observer and the
    parameters of the TLE dataset and the time it was made.  Each of its
    passes belongs to a record of the TLE dataset that parses, lasts at
    least ten seconds and is rated between 0 and 100. *)
Theorem calculatePasses_dataset (this this' : OrbitManager)
    (hoursAhead : option Q) (now clock : Z) (data : PassesData.t) :
  Manager.calculatePasses this hoursAhead now clock = Ok (data, this') ->
  exists dataset,
    tleDataset this = Some dataset /\
    tleDataset this' = Some dataset /\
    PassesData.observer data = TLEDataset.observer dataset /\
    PassesData.parameters data = TLEDataset.parameters dataset /\
    PassesData.generated_at data = toISOString clock /\
    Forall
      (fun pass =>
         (exists sat,
            In sat (TLEDataset.satellites dataset) /\
            Propagator.isValid (Propagator.new sat) = true /\
            SatellitePass.satellite pass = tle_name sat) /\
         SatellitePass.positions pass = [] /\
         (10 <= SatellitePass.duration_seconds pass)%Z /\
         (0 <= SatellitePass.visibility_rating pass <= 100)%Z)
      (PassesData.passes data).
Proof.
  unfold Manager.calculatePasses, Manager.getPassesData, bind.
  cbn [tleDataset calculatedPasses].
  destruct (tleDataset this) as [dataset|]; [|discriminate].
  rewrite fold_left_push. cbn [app]. intros [= <- <-].
  exists dataset. repeat (split; [reflexivity|]).
  cbn [PassesData.passes]. apply Forall_forall. intros pass Hin.
  eapply Permutation_in in Hin; [|apply Permutation_sym, Array_sort_perm].
  apply findPasses_origin in Hin.
  destruct Hin as (sat & a & b & Hsat & Hvalid & Hname & Hpos & _ & _ & Hr).
  split; [exists sat; auto|]. split; [exact Hpos|].
  split.
  - destruct (emitted_pass_span _ _ _ _ _ Hr) as (i & j & Hij & _ & _ & _ & ->). lia.
  - assert (Hrec := refinePass_Some _ _ _ _ _ Hr). cbv zeta in Hrec.
    destruct Hrec as (ts & ps & rest & te & pe & tp & pp &
                      _ & _ & _ & _ & Hpp & _ & _ & ->).
    cbn [SatellitePass.visibility_rating]. unfold Propagator.calculateVisibility.
    destruct (Solar.calculateSolarPosition _ _ _) as [sunElevation sunAzimuth].
    split; [apply rating_lower; lra|apply rating_upper].
Qed.

End ManagerMore.

Lemma floor_div (a : Z) (d : positive) :
  Js.Math_floor (inject_Z a / inject_Z (Zpos d)) = (a / Zpos d)%Z.
Proof.
  unfold Js.Math_floor. apply JsFacts.floor_eq.
  - apply Qle_shift_div_l; [reflexivity|].
    rewrite <- inject_Z_mult, <- Zle_Qle.
    assert (Hm := Z.mul_div_le a (Zpos d) eq_refl). lia.
  - apply Qlt_shift_div_r; [reflexivity|].
    rewrite <- inject_Z_mult, <- Zlt_Qlt.
    assert (Hm := Z.mul_succ_div_gt a (Zpos d) eq_refl). lia.
Qed.

(** X21. Before the target instant the countdown shows whole hours, minutes
    below 60 and seconds below 60 that add up to the time left, less the
    odd milliseconds. *)
Theorem countdown_adds_up (targetDate now : Z) :
  (now < targetDate)%Z ->
  exists hours minutes seconds,
    Tracker.countdownText targetDate now =
      (Tracker.Number_toString hours ++ "h " ++ Tracker.Number_toString minutes
       ++ "min " ++ Tracker.Number_toString seconds ++ "s")%string /\
    (0 <= hours)%Z /\ (0 <= minutes < 60)%Z /\ (0 <= seconds < 60)%Z /\
    (hours * 3600000 + minutes * 60000 + seconds * 1000 <= targetDate - now
     < hours * 3600000 + minutes * 60000 + seconds * 1000 + 1000)%Z.
Proof.
  intros Hlt. unfold Tracker.countdownText. cbv zeta.
  destruct (targetDate - now <=? 0)%Z eqn:E; [apply Z.leb_le in E; lia|].
  set (diff := (targetDate - now)%Z) in *.
  unfold Tracker.countdownParts.
  change 3600000 with (inject_Z 3600000).
  change 60000 with (inject_Z 60000).
  change 1000 with (inject_Z 1000).
  rewrite !floor_div.
  eexists _, _, _. split; [reflexivity|].
  assert (Hd : (0 < diff)%Z) by lia.
  rewrite !Z.rem_mod_nonneg by lia.
  repeat split; Z.div_mod_to_equations; lia.
Qed.

Section TrackerFacts.
Context `{JsMath} `{JsDate} `{SatelliteJs} `{JsLocale}.

Let startOf (pass : SatellitePass.t) : Z :=
  Date_parse (SatellitePass.start_time_utc pass).

Lemma nextPass_sorted (passesData : PassesData.t) (clock : Z) :
  StronglySorted (fun a b => (startOf a <= startOf b)%Z) (PassesData.passes passesData) ->
  match Tracker.nextPass passesData clock with
  | Some next =>
      In next (PassesData.passes passesData) /\
      (clock < startOf next)%Z /\
      Forall (fun pass => (startOf pass <= clock \/ startOf next <= startOf pass)%Z)
        (PassesData.passes passesData)
  | None =>
      Forall (fun pass => (startOf pass <= clock)%Z) (PassesData.passes passesData)
  end.
Proof.
  unfold Tracker.nextPass, Tracker.futurePasses.
  induction 1 as [|pass rest Hs IH Hall]; cbn [filter]; [constructor|].
  fold (startOf pass).
  destruct (clock <? startOf pass)%Z eqn:E.
  - apply Z.ltb_lt in E. split; [now left|]. split; [exact E|].
    constructor; [lia|]. eapply Forall_impl; [|exact Hall]. cbn. intros; lia.
  - apply Z.ltb_ge in E.
    destruct (filter _ rest) as [|next more].
    + now constructor.
    + destruct IH as (Hin & Hnext & Hrest).
      split; [now right|]. split; [exact Hnext|]. constructor; [lia|exact Hrest].
Qed.

(** X22. After a calculation the pass shown as the next one is the earliest
    pass of the dataset that starts after the clock; none is shown exactly
    when no pass starts after the clock. *)
Theorem nextPass_is_earliest (this this' : OrbitManager) (hoursAhead : option Q)
    (now generated clock : Z) (data : PassesData.t) :
  Manager.calculatePasses this hoursAhead now generated = Ok (data, this') ->
  match Tracker.nextPass data clock with
  | Some next =>
      In next (PassesData.passes data) /\
      (clock < startOf next)%Z /\
      Forall (fun pass => (startOf pass <= clock \/ startOf next <= startOf pass)%Z)
        (PassesData.passes data)
  | None =>
      Forall (fun pass => (startOf pass <= clock)%Z) (PassesData.passes data)
  end.
Proof.
  intros Hcalc. apply nextPass_sorted.
  revert Hcalc. unfold Manager.calculatePasses, Manager.getPassesData, bind.
  cbn [tleDataset calculatedPasses].
  destruct (tleDataset this) as [dataset|]; [|discriminate].
  intros [= <- _]. cbn [PassesData.passes].
  eapply StronglySorted_impl; [|apply Array_sort_sorted].
  - unfold Manager.byStartTime, startOf. intros a b Hab. lia.
  - unfold Manager.byStartTime. intros a b Hab. lia.
  - unfold Manager.byStartTime. intros a b c Hab Hbc. lia.
Qed.

Lemma tableStep_cases (now index : Z) (rows : list Tracker.row) (pass : SatellitePass.t) :
  if (startOf pass <? now)%Z
  then Tracker.tableStep now (index, rows) pass = (index, rows)
  else exists r,
    Tracker.tableStep now (index, rows) pass = ((index + 1)%Z, rows ++ [r]) /\
    Tracker.displayIndex r = (index + 1)%Z /\
    Tracker.satelliteCell r = SatellitePass.satellite pass /\
    Tracker.elevationCell r = SatellitePass.max_elevation pass.
Proof.
  unfold Tracker.tableStep, startOf.
  destruct (Date_parse (SatellitePass.start_time_utc pass) <? now)%Z; [reflexivity|].
  eexists. repeat split.
Qed.

Lemma tableRows_fold (now : Z) (passes : list SatellitePass.t)
    (index : Z) (rows : list Tracker.row) :
  let shown := filter (fun pass => negb (startOf pass <? now)%Z) passes in
  let result := fold_left (Tracker.tableStep now) passes (index, rows) in
  map Tracker.displayIndex (snd result) =
    map Tracker.displayIndex rows ++
    map (fun i => (index + Z.of_nat (S i))%Z) (seq 0 (List.length shown)) /\
  map Tracker.satelliteCell (snd result) =
    map Tracker.satelliteCell rows ++ map SatellitePass.satellite shown /\
  map Tracker.elevationCell (snd result) =
    map Tracker.elevationCell rows ++ map SatellitePass.max_elevation shown.
Proof.
  cbv zeta. revert index rows.
  induction passes as [|pass rest IH]; intros index rows.
  - cbn. rewrite !app_nil_r. repeat split.
  - cbn [fold_left filter].
    assert (Hstep := tableStep_cases now index rows pass).
    destruct (startOf pass <? now)%Z; cbn [negb].
    + rewrite Hstep. apply IH.
    + destruct Hstep as (r & -> & Hidx & Hsat & Helev).
      destruct (IH (index + 1)%Z (rows ++ [r])) as (Hn & Hs & He).
      rewrite Hn, Hs, He. rewrite !map_app, <- !app_assoc.
      cbn [map app List.length seq]. rewrite Hidx, Hsat, Helev.
      rewrite <- seq_shift, map_map.
      repeat split.
      f_equal. f_equal; try (apply map_ext; intros i); lia.
Qed.

(** X23. The table lists the passes that have not started before the
    clock, in the order of the dataset, and numbers them 1, 2, 3 and so
    on. *)
Theorem tableRows_numbered (passesData : PassesData.t) (now : Z) :
  let shown :=
    filter (fun pass => negb (startOf pass <? now)%Z) (PassesData.passes passesData) in
  let rows := Tracker.tableRows passesData now in
  List.length rows = List.length shown /\
  map Tracker.displayIndex rows =
    map (fun i => Z.of_nat (S i)) (seq 0 (List.length shown)) /\
  map Tracker.satelliteCell rows = map SatellitePass.satellite shown /\
  map Tracker.elevationCell rows = map SatellitePass.max_elevation shown.
Proof.
  cbv zeta. unfold Tracker.tableRows.
  destruct (tableRows_fold now (PassesData.passes passesData) 0 [])
    as (Hnum & Hsat & Helev).
  cbn [map app] in Hnum, Hsat, Helev.
  split; [|split; [|split]].
  - rewrite <- (length_map Tracker.satelliteCell), Hsat. apply length_map.
  - rewrite Hnum. apply map_ext. intros i. lia.
  - exact Hsat.
  - exact Helev.
Qed.

End TrackerFacts.

(** * More runs on the small host *)

Module MoreRuns.
Import TestHost.

Lemma azimuthToDirection_full_turn_north :
  -22.5 <= -10 /\
  exists label,
    In label Coordinates.directions /\
    Coordinates.azimuthToDirection (-10) = Some label /\
    Coordinates.azimuthToDirection (-10 + 360) = Some label.
Proof.
  split; [unfold Qle; simpl; lia|].
  apply (azimuthToDirection_full_turn (-10)). unfold Qle. simpl. lia.
Defined.

Lemma azimuthToDirection_negative_azimuth_60 :
  Coordinates.azimuthToDirection (-60) = None.
Proof.
  apply (azimuthToDirection_negative_azimuth (-60)).
  - unfold Qle. simpl. lia.
  - unfold Qlt. simpl. lia.
Defined.

Lemma calculateAzimuth_normalized_jyvaskyla :
  0 <= Coordinates.calculateAzimuth 60 20 62.2426 25.7473 /\
  Coordinates.calculateAzimuth 60 20 62.2426 25.7473 < 360.
Proof.
  apply (calculateAzimuth_normalized 60 20 62.2426 25.7473).
  exact Runs.atan2_lower_bound_holds.
Defined.

Lemma gmst_normalized_j2000 :
  0 <= Coordinates.gmst 2451545.0 /\ Coordinates.gmst 2451545.0 < 2 * Math_PI.
Proof.
  apply (gmst_normalized 2451545.0). unfold Qlt. simpl. lia.
Defined.

Lemma rating_within_0_100_overhead :
  (rating (Solar.calculateVisibilityRating (-20) true 90) <= 100)%Z /\
  (0 <= rating (Solar.calculateVisibilityRating (-20) true 90))%Z.
Proof.
  destruct (rating_within_0_100 (-20) 90 true) as [Hupper Hlower].
  split; [exact Hupper|]. apply Hlower. unfold Qle. simpl. lia.
Defined.

Lemma rating_monotone_dusk :
  (rating (Solar.calculateVisibilityRating (-5) true 30)
   <= rating (Solar.calculateVisibilityRating (-13) true 60))%Z.
Proof.
  apply (rating_monotone (-5) (-13) 30 60 true); unfold Qle; simpl; lia.
Defined.

Lemma propagate_position_high :
  exists pos,
    Propagator.propagate high 600000 62.2426 25.7473 = Some pos /\
    Propagator.isValid high = true /\
    time pos = 600000%Z /\
    0 <= azimuth pos /\ azimuth pos < 360.
Proof.
  eexists. split; [vm_compute; reflexivity|].
  apply (propagate_position high 600000 62.2426 25.7473).
  - exact Runs.atan2_lower_bound_holds.
  - vm_compute. reflexivity.
Defined.

Lemma findSatellitePasses_from_windows_high :
  exists approxStart approxEnd,
    In approxStart (Scan.coarseInstants 0 1000000) /\
    Scan.qualifiesAt (calculator 10 1500) high approxStart = true /\
    (approxStart <= approxEnd <= 1000000)%Z /\
    Calculator.refinePass (calculator 10 1500) high approxStart approxEnd = Some highPass.
Proof.
  apply (findSatellitePasses_from_windows (calculator 10 1500) high 0 1000000 highPass).
  vm_compute. left. reflexivity.
Defined.

(** ["low"] is up for ten seconds between two coarse instants: it qualifies
    at the instant 0, and a search from -100000 to 1000000 does not find
    it. *)
Lemma findSatellitePasses_needs_coarse_sample_low :
  Scan.qualifiesAt (calculator 10 1500) low 0 = true /\
  Scan.coarseInstants (-100000) 1000000 = [-100000; 200000; 500000; 800000]%Z /\
  Calculator.findSatellitePasses (calculator 10 1500) low (-100000) 1000000 = [].
Proof.
  assert (Hinstants :
    Scan.coarseInstants (-100000) 1000000 = [-100000; 200000; 500000; 800000]%Z)
    by (vm_compute; reflexivity).
  split; [vm_compute; reflexivity|]. split; [exact Hinstants|].
  apply (findSatellitePasses_needs_coarse_sample (calculator 10 1500) low).
  rewrite Hinstants.
  repeat (apply Forall_cons; [vm_compute; reflexivity|]). apply Forall_nil.
Defined.

Lemma findPasses_empty_horizon_batch :
  Calculator.findPasses (calculator 10 1500) [tle "1" "high"; tle "1" "low"] 600000 0 = [].
Proof.
  apply (findPasses_empty_horizon (calculator 10 1500)). reflexivity.
Defined.

Lemma findPasses_provenance_high :
  exists sat approxStart approxEnd,
    In sat [tle "1" "high"; flagged; tle "1" "low"] /\
    Propagator.isValid (Propagator.new sat) = true /\
    SatellitePass.satellite highPass = tle_name sat /\
    SatellitePass.positions highPass = [] /\
    (0 <= approxStart <= approxEnd)%Z /\ (approxEnd <= 1000000)%Z /\
    Calculator.refinePass (calculator 10 1500) (Propagator.new sat) approxStart approxEnd
      = Some highPass.
Proof.
  apply (findPasses_provenance (calculator 10 1500)
           [tle "1" "high"; flagged; tle "1" "low"] 0 1000000 highPass).
  vm_compute. left. reflexivity.
Defined.

Lemma emitted_pass_duration_high :
  exists ts te,
    SatellitePass.start_time_utc highPass = toISOString ts /\
    SatellitePass.end_time_utc highPass = toISOString te /\
    (600000 - 120000 <= ts)%Z /\ (te <= 600000 + 120000)%Z /\
    (1000 * SatellitePass.duration_seconds highPass = te - ts)%Z /\
    (10 <= SatellitePass.duration_seconds highPass)%Z /\
    (SatellitePass.duration_seconds highPass mod 10 = 0)%Z.
Proof.
  apply (emitted_pass_duration (calculator 10 1500) high 600000 600000 highPass).
  vm_compute. reflexivity.
Defined.

Lemma emitted_pass_start_direction_high :
  exists ts ps rest label,
    Window.qualifyingSamples (calculator 10 1500) high 600000 600000 = (ts, ps) :: rest /\
    SatellitePass.start_azimuth highPass = Js.Math_round (azimuth ps) /\
    (0 <= SatellitePass.start_azimuth highPass <= 360)%Z /\
    SatellitePass.start_direction highPass = Some label /\
    Coordinates.azimuthToDirection (inject_Z (SatellitePass.start_azimuth highPass))
      = Some label /\
    In label Coordinates.directions.
Proof.
  apply (emitted_pass_start_direction (calculator 10 1500) high 600000 600000 highPass).
  - exact Runs.atan2_lower_bound_holds.
  - vm_compute. reflexivity.
Defined.

Lemma emitted_pass_visibility_high :
  exists tp pp,
    In (tp, pp) (Window.qualifyingSamples (calculator 10 1500) high 600000 600000) /\
    Forall (fun sample => elevation (snd sample) <= elevation pp)
      (Window.qualifyingSamples (calculator 10 1500) high 600000 600000) /\
    SatellitePass.max_elevation_time_utc highPass = toISOString tp /\
    SatellitePass.visibility_rating highPass =
      rating (Propagator.calculateVisibility high pp 62.2426 25.7473) /\
    SatellitePass.visibility_category highPass =
      Category_string (category (Propagator.calculateVisibility high pp 62.2426 25.7473)) /\
    (0 <= SatellitePass.visibility_rating highPass <= 100)%Z /\
    In (SatellitePass.visibility_category highPass)
      ["Excellent"; "Good"; "Fair"; "Poor"]%string.
Proof.
  apply (emitted_pass_visibility (calculator 10 1500) high 600000 600000 highPass).
  vm_compute. reflexivity.
Defined.

Lemma calculatePasses_dataset_manager :
  exists dataset,
    tleDataset manager = Some dataset /\
    PassesData.observer passesData = TLEDataset.observer dataset /\
    PassesData.parameters passesData = TLEDataset.parameters dataset /\
    PassesData.generated_at passesData = toISOString 5 /\
    Forall
      (fun pass =>
         (exists sat,
            In sat (TLEDataset.satellites dataset) /\
            Propagator.isValid (Propagator.new sat) = true /\
            SatellitePass.satellite pass = tle_name sat) /\
         SatellitePass.positions pass = [] /\
         (10 <= SatellitePass.duration_seconds pass)%Z /\
         (0 <= SatellitePass.visibility_rating pass <= 100)%Z)
      [lowPass; highPass].
Proof.
  destruct (calculatePasses_dataset manager
              {| tleDataset := tleDataset manager;
                 calculatedPasses := [lowPass; highPass] |}
              None 0 5 passesData)
    as (dataset & Hd & _ & Hobs & Hpar & Hgen & Hall).
  - vm_compute. reflexivity.
  - exists dataset. repeat (split; [assumption|]). exact Hall.
Defined.

Lemma countdown_adds_up_example :
  exists hours minutes seconds,
    Tracker.countdownText 3725500 0 =
      (Tracker.Number_toString hours ++ "h " ++ Tracker.Number_toString minutes
       ++ "min " ++ Tracker.Number_toString seconds ++ "s")%string /\
    (0 <= hours)%Z /\ (0 <= minutes < 60)%Z /\ (0 <= seconds < 60)%Z /\
    (hours * 3600000 + minutes * 60000 + seconds * 1000 <= 3725500 - 0
     < hours * 3600000 + minutes * 60000 + seconds * 1000 + 1000)%Z.
Proof.
  apply (countdown_adds_up 3725500 0). lia.
Defined.

(** At the instant 5 the pass of ["low"] has begun: the next pass is the
    pass of ["high"]. *)
Lemma nextPass_is_earliest_manager :
  Tracker.nextPass passesData 5 = Some highPass /\
  In highPass (PassesData.passes passesData) /\
  (5 < Date_parse (SatellitePass.start_time_utc highPass))%Z /\
  Forall
    (fun pass =>
       (Date_parse (SatellitePass.start_time_utc pass) <= 5 \/
        Date_parse (SatellitePass.start_time_utc highPass)
          <= Date_parse (SatellitePass.start_time_utc pass))%Z)
    (PassesData.passes passesData).
Proof.
  assert (Hnext : Tracker.nextPass passesData 5 = Some highPass)
    by (vm_compute; reflexivity).
  split; [exact Hnext|].
  assert (Hearliest := nextPass_is_earliest manager
            {| tleDataset := tleDataset manager;
               calculatedPasses := [lowPass; highPass] |}
            None 0 5 5 passesData).
  rewrite Hnext in Hearliest. apply Hearliest.
  vm_compute. reflexivity.
Defined.

Example countdown_text : Tracker.countdownText 3725500 0 = "1h 2min 5s"%string.
Proof. reflexivity. Qed.

Example countdown_now : Tracker.countdownText 0 0 = "NYT!"%string.
Proof. reflexivity. Qed.

Example tableRows_manager :
  map (fun r => (Tracker.displayIndex r, Tracker.satelliteCell r, Tracker.appearDir r,
                 Tracker.elevClass r, Tracker.visibilityClass r))
    (Tracker.tableRows passesData 5) =
  [(1%Z, "high", "N", "elevation-medium", "visibility-fair")]%string.
Proof. vm_compute. reflexivity. Qed.

End MoreRuns.

(** ** When a pass is emitted *)

Section Emission.
Context `{JsMath} `{JsDate} `{SatelliteJs}.
Variable this : PassCalculator.
Variable propagator : SatellitePropagator.

Local Abbreviation qualifyingSamples := (Window.qualifyingSamples this propagator).

(** X24. A window with at least two qualifying fine samples, one of them
    above the horizon, and all of them within the maximum range, gives a
    pass. *)
Theorem refinePass_emits (approxStart approxEnd : Z) :
  (2 <= List.length (qualifyingSamples approxStart approxEnd))%nat ->
  Exists (fun sample => 0 < elevation (snd sample))
    (qualifyingSamples approxStart approxEnd) ->
  Forall (fun sample =>
            distance (snd sample) <= Parameters.max_distance_km (parameters this))
    (qualifyingSamples approxStart approxEnd) ->
  exists pass,
    Calculator.refinePass this propagator approxStart approxEnd = Some pass.
Proof.
  intros Hlen Hpos Hdist.
  destruct (refineLoop_inv this propagator approxStart approxEnd) as [I _].
  cbv zeta in I. unfold Calculator.refinePass.
  set (s := Calculator.refineLoop this propagator approxStart approxEnd) in *.
  destruct I as [_ Hpositions Hstart Hend Hnone Hsome].
  change (Window.qualifyingUpTo this propagator _ _)
    with (qualifyingSamples approxStart approxEnd) in *.
  destruct (qualifyingSamples approxStart approxEnd) as [|first rest] eqn:EQ;
    [cbn in Hlen; lia|].
  cbn [hd_error option_map] in Hstart. rewrite Hstart.
  destruct (hd_error (rev (first :: rest))) as [last|] eqn:ER.
  2:{ apply (f_equal (@List.length _)) in EQ. destruct (rev (first :: rest)) eqn:E.
      - apply (f_equal (@List.length _)) in E. rewrite length_rev in E. discriminate.
      - discriminate. }
  cbn [option_map] in Hend. rewrite Hend.
  destruct (Refine.maxElevationPosition s) as [pp|] eqn:EP.
  2:{ destruct (Hnone eq_refl) as (_ & _ & Hle).
      apply Exists_exists in Hpos. destruct Hpos as ([t p] & Hin & Hp).
      specialize (Hle t p Hin). cbn [snd] in Hp. lra. }
  destruct (Hsome pp eq_refl) as (tp & Hin & -> & _).
  rewrite Hpositions. rewrite length_map.
  destruct (List.length (first :: rest) <? 2)%nat eqn:EL;
    [apply Nat.ltb_lt in EL; lia|].
  rewrite Forall_forall in Hdist. specialize (Hdist _ Hin). cbn [snd] in Hdist.
  destruct (Js.gtb (distance pp) _) eqn:ED; [js_cmp; lra|].
  cbn [map]. destruct (if (3 <=? _)%nat then _ else _). eexists. reflexivity.
Qed.

End Emission.

Module EmissionRun.
Import TestHost.

Lemma refinePass_emits_high :
  exists pass,
    Calculator.refinePass (calculator 10 1500) high 600000 600000 = Some pass.
Proof.
  apply (refinePass_emits (calculator 10 1500) high 600000 600000).
  - vm_compute. lia.
  - vm_compute. apply Exists_cons_hd. reflexivity.
  - vm_compute. repeat (apply Forall_cons; [discriminate|]). apply Forall_nil.
Defined.

End EmissionRun.
